(* Shallow embedding of the stock-tracking app services:
   src/unnamed/part_000 (apiService), src/services/cacheService.js,
   src/services/stockService_new.js, src/services/wishlistService.js,
   src/services/searchService.js.

   Conventions of the model:
   - AsyncStorage is a finite map from string keys to stored values
     (gmap string Stored); values written with JSON.stringify are kept
     in their parsed form.
   - Date.now() is an explicit argument [now : Z] (milliseconds), and
     new Date().toISOString() an explicit argument [now_iso : string].
   - A promise is either resolved with a value or rejected with a JS
     error object; async service methods return an [Outcome] and the
     new store.
   - The Alpha Vantage HTTP layer (fetch) is an input: the outcome
     of the fetch call. *)

From Stdlib Require Import ZArith String Ascii List Bool Lia Sorted.
From stdpp Require Import base gmap strings list.

Open Scope Z_scope.

(* ===================================================================== *)
(* JavaScript helpers                                                    *)
(* ===================================================================== *)

Module Js.

(** A JS Error object: its [name] ("Error", "TypeError", "AbortError",
    "SyntaxError"), its [message] and its [status] property ([None] when
    undefined, as on every error built by [new Error]). *)
Record JsError := mkJsError { err_name : string; err_message : string; err_status : option Z }.

(** [new Error(msg)]. *)
Definition Error (msg : string) : JsError :=
  {| err_name := "Error"; err_message := msg; err_status := None |}.

(** A settled promise. *)
Inductive Promise (A : Type) : Type :=
| Resolved (x : A)
| Rejected (e : JsError).
Arguments Resolved {A} x.
Arguments Rejected {A} e.

(** The result of an async method: resolved with a value or rejected. *)
Inductive Outcome (A : Type) : Type :=
| Returns (x : A)
| Raises (e : JsError).
Arguments Returns {A} x.
Arguments Raises {A} e.

(** Truthiness of a possibly-undefined string field. *)
Definition truthy (o : option string) : bool :=
  match o with
  | Some s => negb (String.eqb s "")
  | None => false
  end.

(** [a || b] on possibly-undefined strings. *)
Definition or_str (a b : option string) : option string :=
  if truthy a then a else b.

(** Decimal rendering of a non-negative integer (template literals). *)
Fixpoint digits_aux (fuel : nat) (n : N) (acc : string) : string :=
  match fuel with
  | O => acc
  | S f =>
      let acc' := String (ascii_of_N (48 + N.modulo n 10)) acc in
      if (N.div n 10 =? 0)%N then acc' else digits_aux f (N.div n 10) acc'
  end.

Definition Z_to_dec (z : Z) : string :=
  if z <? 0 then ("-" ++ digits_aux 64 (Z.to_N (- z)) "")%string
  else digits_aux 64 (Z.to_N z) "".

End Js.

Import Js.

(* ===================================================================== *)
(* apiService (src/unnamed/part_000)                                     *)
(* ===================================================================== *)

Module Api.

(** The parsed JSON body of an Alpha Vantage response: the two
    error fields inspected by makeRequest and the rest of the body. *)
Record ApiBody (A : Type) := mkApiBody {
  error_message : option string;   (* data['Error Message'] *)
  note : option string;            (* data['Note'] *)
  body : A
}.
Arguments mkApiBody {A} _ _ _.
Arguments error_message {A} _.
Arguments note {A} _.
Arguments body {A} _.

(** How the [fetch(...)] call settles: it rejects with an error (the
    timeout abort rejects with an "AbortError", a network failure with
    a "TypeError"), or it resolves with a response whose [json()] either
    parses ([Some]) or fails ([None]). *)
Inductive FetchOutcome (A : Type) : Type :=
| FetchRejects (e : JsError)
| FetchResponse (ok : bool) (status : Z) (json : option (ApiBody A)).
Arguments FetchRejects {A} e.
Arguments FetchResponse {A} ok status json.

(** The envelope returned by makeRequest. *)
Inductive Envelope (A : Type) : Type :=
| EnvOk (data : ApiBody A) (status : Z)        (* {success: true, data, status} *)
| EnvErr (error : string) (status : Z).        (* {success: false, error, status} *)
Arguments EnvOk {A} data status.
Arguments EnvErr {A} error status.

Definition success {A} (e : Envelope A) : bool :=
  match e with EnvOk _ _ => true | EnvErr _ _ => false end.

Definition TIMEOUT_MESSAGE : string :=
  "Request timeout - please check your internet connection".

Definition RATE_LIMIT_MESSAGE : string :=
  "API call frequency limit reached. Please try again later.".

(** The body of the [try] block: [inl e] when it throws [e]. *)
Definition makeRequest_try {A} (o : FetchOutcome A) : JsError + Envelope A :=
  match o with
  | FetchRejects e => inl e
  | FetchResponse ok status json =>
      if negb ok then inl (Error ("HTTP error! status: " ++ Z_to_dec status))
      else match json with
           | None => inl {| err_name := "SyntaxError"; err_message := "JSON Parse error"; err_status := None |}
           | Some data =>
               if truthy (error_message data) then
                 inl (Error (default "" (error_message data)))
               else if truthy (note data) then inl (Error RATE_LIMIT_MESSAGE)
               else inr (EnvOk data status)
           end
  end.

(** [error.status || 500]: an undefined or zero status gives 500. *)
Definition status_or_500 (e : JsError) : Z :=
  match err_status e with
  | Some s => if Z.eqb s 0 then 500 else s
  | None => 500
  end.

(** makeRequest: the [catch] block rethrows an abort as a timeout error
    and encodes every other error in a failure envelope. *)
Definition makeRequest {A} (o : FetchOutcome A) : Promise (Envelope A) :=
  match makeRequest_try o with
  | inr env => Resolved env
  | inl e =>
      if String.eqb (err_name e) "AbortError" then Rejected (Error TIMEOUT_MESSAGE)
      else Resolved (EnvErr (err_message e) (status_or_500 e))
  end.

End Api.

(* ===================================================================== *)
(* Data model of stockService_new.js                                     *)
(* ===================================================================== *)

Module Movers.

(** One raw entry of top_gainers / top_losers / most_actively_traded. *)
Record RawStock := mkRawStock {
  r_ticker : string;
  r_price : string;
  r_change_amount : string;
  r_change_percentage : string;
  r_volume : string
}.

(** The raw TOP_GAINERS_LOSERS body; a missing list is [None]. *)
Record RawMovers := mkRawMovers {
  r_metadata : string;
  r_last_updated : string;
  top_gainers : option (list RawStock);
  top_losers : option (list RawStock);
  most_actively_traded : option (list RawStock)
}.

(** [metadata]: the API's metadata string, or the fallback's
    [{information: ...}] object. *)
Inductive Metadata :=
| MetaText (s : string)
| MetaInfo (information : string).

Record Stock := mkStock {
  id : nat;
  ticker : string;
  name : string;
  price : string;
  change : string;
  changeAmount : string;
  volume : string
}.

Record MoversData := mkMoversData {
  metadata : Metadata;
  lastUpdated : string;
  topGainers : list Stock;
  topLosers : list Stock;
  mostActive : list Stock
}.

End Movers.

(* ===================================================================== *)
(* Data model of wishlistService.js                                      *)
(* ===================================================================== *)

Module Wl.

(** A stored wishlist stock; a field absent in the JSON is [None]. *)
Record WishlistStock := mkWishlistStock {
  symbol : option string;
  name : option string;
  price : option string;
  change : option string;
  addedAt : string
}.

Record Wishlist := mkWishlist {
  id : string;
  wl_name : string;
  stocks : list WishlistStock;
  createdAt : string;
  updatedAt : string
}.

(** The [stock] argument of addStockToWishlist: a movers entry carries
    [ticker], a search result carries [symbol]. *)
Record StockInput := mkStockInput {
  in_symbol : option string;
  in_ticker : option string;
  in_name : option string;
  in_price : option string;
  in_change : option string
}.

End Wl.

(* ===================================================================== *)
(* AsyncStorage and cacheService.js                                      *)
(* ===================================================================== *)

Module Storage.

(** Payloads the services put in the cache. *)
Inductive Payload :=
| PMovers (d : Movers.MoversData)                 (* top gainers/losers *)
| POverview (d : Api.ApiBody (list (string * string))).  (* company overview *)

(** [{data, timestamp, expiration}] as written by cacheService.set. *)
Record CacheItem := mkCacheItem {
  data : Payload;
  timestamp : Z;
  expiration : Z
}.

(** A value held by AsyncStorage, after JSON.parse. *)
Inductive Stored :=
| SCache (it : CacheItem)
| SWishlists (ws : list Wl.Wishlist)
| SText (s : string).

Abbreviation Store := (gmap string Stored).

Definition CACHE_PREFIX : string := "cache_".
Definition DEFAULT_EXPIRATION : Z := 5 * 60 * 1000.

Definition cache_key (key : string) : string := (CACHE_PREFIX ++ key)%string.

(** cacheService.set *)
Definition set (key : string) (d : Payload) (expirationMs now : Z) (st : Store) : Store :=
  <[cache_key key := SCache {| data := d; timestamp := now; expiration := now + expirationMs |}]> st.

(** cacheService.remove *)
Definition remove (key : string) (st : Store) : Store :=
  delete (cache_key key) st.

(** cacheService.get: absent for a miss, evicts and answers absent when
    [now > expiration]. A stored value that is not a cache item parses to
    an object without [data] (undefined, falsy) and without
    [expiration] ([now > undefined] is false): absent, nothing removed. *)
Definition get (key : string) (now : Z) (st : Store) : option Payload * Store :=
  match st !! cache_key key with
  | None => (None, st)
  | Some (SCache it) =>
      if now >? expiration it then (None, remove key st)
      else (Some (data it), st)
  | Some _ => (None, st)
  end.

(** AsyncStorage.multiRemove *)
Definition multiRemove (ks : list string) (st : Store) : Store :=
  fold_right (fun k m => delete k m) st ks.

(** AsyncStorage.getAllKeys *)
Definition getAllKeys (st : Store) : list string := map fst (map_to_list st).

(** cacheService.clearAll *)
Definition clearAll (st : Store) : Store :=
  let cacheKeys := List.filter (fun k => String.prefix CACHE_PREFIX k) (getAllKeys st) in
  if (0 <? length cacheKeys)%nat then multiRemove cacheKeys st else st.

(** The keys [getAllKeys] returns that start with "cache_". *)
Definition cacheKeysOf (st : Store) : list string :=
  List.filter (fun k => String.prefix CACHE_PREFIX k) (getAllKeys st).

(** cacheService.isValid: an item is valid while [Date.now() <= expiration].
    A wishlist array has no [expiration] ([now <= undefined] is false);
    text that is not JSON makes JSON.parse throw, caught: false. *)
Definition isValid (key : string) (now : Z) (st : Store) : bool :=
  match st !! cache_key key with
  | None => false
  | Some (SCache it) => now <=? expiration it
  | Some (SWishlists _) => false
  | Some (SText _) => false
  end.

(** The loop of clearExpired over the cache keys: the keys whose item has
    expired, or [None] when JSON.parse throws on a stored text (the whole
    call is then aborted by its [catch]). An empty text fails the
    [if (cachedItem)] test and is skipped. *)
Fixpoint scanExpired (now : Z) (st : Store) (ks : list string) : option (list string) :=
  match ks with
  | [] => Some []
  | k :: rest =>
      match st !! k with
      | Some (SCache it) =>
          option_map (fun r => if now >? expiration it then k :: r else r) (scanExpired now st rest)
      | Some (SText s) => if String.eqb s "" then scanExpired now st rest else None
      | _ => scanExpired now st rest
      end
  end.

(** cacheService.clearExpired *)
Definition clearExpired (now : Z) (st : Store) : Store :=
  match scanExpired now st (cacheKeysOf st) with
  | Some expiredKeys =>
      if (0 <? length expiredKeys)%nat then multiRemove expiredKeys st else st
  | None => st
  end.

Record CacheStats := mkCacheStats {
  totalItems : nat;
  validItems : nat;
  expiredItems : nat;
  totalSize : string
}.

Section Stats.
(** [cachedItem.length]: the length of the stored JSON text. *)
Variable stored_length : Stored -> nat.
(** [`${(totalSize / 1024).toFixed(2)} KB`]: floating-point formatting. *)
Variable format_kb : nat -> string.

(** The loop of getStats: (totalItems, validItems, expiredItems,
    totalSize), or [None] when JSON.parse throws. *)
Fixpoint scanStats (now : Z) (st : Store) (ks : list string)
    (acc : nat * nat * nat * nat) : option (nat * nat * nat * nat) :=
  match ks with
  | [] => Some acc
  | k :: rest =>
      match st !! k with
      | None => scanStats now st rest acc
      | Some (SText s) => if String.eqb s "" then scanStats now st rest acc else None
      | Some v =>
          let '(t, va, ex, sz) := acc in
          let fresh := match v with SCache it => now <=? expiration it | _ => false end in
          scanStats now st rest
            (S t, if fresh then S va else va, if fresh then ex else S ex, (sz + stored_length v)%nat)
      end
  end.

(** cacheService.getStats *)
Definition getStats (now : Z) (st : Store) : CacheStats :=
  match scanStats now st (cacheKeysOf st) (0, 0, 0, 0)%nat with
  | Some (t, va, ex, sz) =>
      {| totalItems := t; validItems := va; expiredItems := ex; totalSize := format_kb sz |}
  | None => {| totalItems := 0; validItems := 0; expiredItems := 0; totalSize := "0 KB" |}
  end.
End Stats.

End Storage.

Import Storage.

(** wishlistService.js: WISHLIST_KEY *)
Definition WISHLIST_KEY : string := "stock_wishlists".

(* ===================================================================== *)
(* stockService_new.js                                                   *)
(* ===================================================================== *)

Module StockService.
Import Movers Api.

Definition TOP_GAINERS_LOSERS : string := "top_gainers_losers".
Definition COMPANY_OVERVIEW : string := "company_overview_".

Definition STOCK_DATA : Z := 5 * 60 * 1000.
Definition COMPANY_DATA : Z := 30 * 60 * 1000.
Definition CHART_DATA : Z := 10 * 60 * 1000.

(** getCompanyName: the static table [knownTickers]. *)
Definition knownTickers : list (string * string) := [
  ("AAPL", "Apple Inc."); ("TSLA", "Tesla Inc."); ("MSFT", "Microsoft Corp.");
  ("AMZN", "Amazon.com Inc."); ("GOOGL", "Alphabet Inc.");
  ("META", "Meta Platforms Inc."); ("NFLX", "Netflix Inc.");
  ("NVDA", "NVIDIA Corp."); ("BRK.A", "Berkshire Hathaway");
  ("BRK.B", "Berkshire Hathaway"); ("UNH", "UnitedHealth Group");
  ("JNJ", "Johnson & Johnson"); ("JPM", "JPMorgan Chase"); ("V", "Visa Inc.");
  ("PG", "Procter & Gamble"); ("HD", "Home Depot"); ("MA", "Mastercard Inc.");
  ("BAC", "Bank of America"); ("ABBV", "AbbVie Inc."); ("PFE", "Pfizer Inc.");
  ("KO", "Coca-Cola"); ("AVGO", "Broadcom Inc."); ("PEP", "PepsiCo Inc.");
  ("TMO", "Thermo Fisher"); ("COST", "Costco Wholesale"); ("DIS", "Walt Disney");
  ("ABT", "Abbott Laboratories"); ("ACN", "Accenture"); ("VZ", "Verizon");
  ("ADBE", "Adobe Inc."); ("DHR", "Danaher Corp."); ("WMT", "Walmart Inc.");
  ("TXN", "Texas Instruments"); ("NEE", "NextEra Energy"); ("BMY", "Bristol Myers")
].

Fixpoint lookup_name (t : string) (tbl : list (string * string)) : option string :=
  match tbl with
  | [] => None
  | (k, v) :: rest => if String.eqb k t then Some v else lookup_name t rest
  end.

(** [knownTickers[ticker] || `${ticker} Inc.`] *)
Definition getCompanyName (t : string) : string :=
  match lookup_name t knownTickers with
  | Some n => n
  | None => (t ++ " Inc.")%string
  end.

(** getFallbackData *)
Definition dummyStocks : list Stock := [
  mkStock 1 "AAPL" "Apple Inc." "$175.43" "+2.15%" "+$3.69" "28,456,789";
  mkStock 2 "GOOGL" "Alphabet Inc." "$142.87" "+1.87%" "+$2.63" "31,287,456";
  mkStock 3 "MSFT" "Microsoft Corp." "$367.12" "+0.92%" "+$3.34" "22,876,543";
  mkStock 4 "TSLA" "Tesla Inc." "$248.96" "-1.23%" "-$3.10" "45,692,134"
].

Definition slice {A} (l : list A) (b e : nat) : list A := firstn (e - b) (skipn b l).

Definition getFallbackData (now_iso : string) : MoversData := {|
  metadata := MetaInfo "Fallback data - API temporarily unavailable";
  lastUpdated := now_iso;
  topGainers := slice dummyStocks 0 3;
  topLosers := slice dummyStocks 1 4;
  mostActive := dummyStocks
|}.

Section Formatting.
(** [parseFloat(s).toFixed(2)]: JS floating-point formatting, kept as
    a parameter of the model. *)
Variable fixed2 : string -> string.

(** [stocks.map((stock, index) => ...)], [index] counted from [i]. *)
Fixpoint formatStockList_from (i : nat) (stocks : list RawStock) : list Stock :=
  match stocks with
  | [] => []
  | s :: rest =>
      {| id := i + 1;
         ticker := r_ticker s;
         name := getCompanyName (r_ticker s);
         price := ("$" ++ fixed2 (r_price s))%string;
         change := r_change_percentage s;
         changeAmount := ("$" ++ fixed2 (r_change_amount s))%string;
         volume := r_volume s |} :: formatStockList_from (S i) rest
  end.

Definition formatStockList (stocks : list RawStock) : list Stock :=
  formatStockList_from 0 stocks.

Definition formatStockData (apiData : RawMovers) : MoversData := {|
  metadata := MetaText (r_metadata apiData);
  lastUpdated := r_last_updated apiData;
  topGainers := formatStockList (default [] (top_gainers apiData));
  topLosers := formatStockList (default [] (top_losers apiData));
  mostActive := formatStockList (default [] (most_actively_traded apiData))
|}.

(** fetchTopGainersLosers: [api] is how apiService.getTopGainersLosers()
    settles. Every cached payload is an object, hence truthy. *)
Definition fetchTopGainersLosers (forceRefresh : bool) (now : Z) (now_iso : string)
    (api : Promise (Envelope RawMovers)) (st : Store) : Outcome Payload * Store :=
  let '(c0, st0) := if forceRefresh then (None, st) else get TOP_GAINERS_LOSERS now st in
  match c0 with
  | Some d => (Returns d, st0)
  | None =>
      match api with
      | Resolved (EnvOk resp _) =>
          let formattedData := formatStockData (body resp) in
          (Returns (PMovers formattedData),
           set TOP_GAINERS_LOSERS (PMovers formattedData) STOCK_DATA now st0)
      | Resolved (EnvErr _ _) =>
          (* if (!response.success) *)
          let '(c1, st1) := get TOP_GAINERS_LOSERS now st0 in
          match c1 with
          | Some d => (Returns d, st1)
          | None => (Returns (PMovers (getFallbackData now_iso)), st1)
          end
      | Rejected _ =>
          (* catch block *)
          let '(c1, st1) := get TOP_GAINERS_LOSERS now st0 in
          match c1 with
          | Some d => (Returns d, st1)
          | None => (Returns (PMovers (getFallbackData now_iso)), st1)
          end
      end
  end.
End Formatting.

(** fetchCompanyOverview *)
Definition fetchCompanyOverview (symbol : string) (forceRefresh : bool) (now : Z)
    (api : Promise (Envelope (list (string * string)))) (st : Store) : Outcome Payload * Store :=
  let cacheKey := (COMPANY_OVERVIEW ++ symbol)%string in
  (* the catch block: one more cache read, else rethrow *)
  let catch_ (e : JsError) (s : Store) :=
    let '(c2, s2) := get cacheKey now s in
    match c2 with
    | Some d => (Returns d, s2)
    | None => (Raises e, s2)
    end in
  let '(c0, st0) := if forceRefresh then (None, st) else get cacheKey now st in
  match c0 with
  | Some d => (Returns d, st0)
  | None =>
      match api with
      | Resolved (EnvOk resp _) =>
          (Returns (POverview resp), set cacheKey (POverview resp) COMPANY_DATA now st0)
      | Resolved (EnvErr err _) =>
          let '(c1, st1) := get cacheKey now st0 in
          match c1 with
          | Some d => (Returns d, st1)
          | None => catch_ (Error (if String.eqb err "" then "Failed to fetch company data" else err)) st1
          end
      | Rejected e => catch_ e st0
      end
  end.

(** filterDataByPeriod. A chart point's [date] is the "YYYY-MM-DD" key;
    [parse_date] is [new Date(date).getTime()], [None] for an invalid
    date (NaN, which compares false). *)
Record ChartPoint := mkChartPoint {
  date : string;
  cp_price : string;
  cp_volume : string;
  high : string;
  low : string;
  open_ : string
}.

Definition DAY : Z := 24 * 60 * 60 * 1000.

(** The [switch (period)]: the duration subtracted from [now]. *)
Definition periodDuration (period : string) : option Z :=
  if String.eqb period "1W" then Some (7 * DAY)
  else if String.eqb period "1M" then Some (30 * DAY)
  else if String.eqb period "3M" then Some (90 * DAY)
  else if String.eqb period "6M" then Some (180 * DAY)
  else if String.eqb period "1Y" then Some (365 * DAY)
  else if String.eqb period "5Y" then Some (5 * 365 * DAY)
  else None.

Definition filterDataByPeriod (parse_date : string -> option Z) (now : Z)
    (data : list ChartPoint) (period : string) : list ChartPoint :=
  match periodDuration period with
  | None => data
  | Some d =>
      let cutoffDate := now - d in
      List.filter (fun item =>
        match parse_date (date item) with
        | Some t => cutoffDate <=? t
        | None => false
        end) data
  end.

(** One entry of an Alpha Vantage time series: '1. open' .. '5. volume'. *)
Record Ohlcv := mkOhlcv {
  o_open : string;
  o_high : string;
  o_low : string;
  o_close : string;
  o_volume : string
}.

(** 'Meta Data': '2. Symbol' and '3. Last Refreshed'. *)
Record ChartMeta := mkChartMeta {
  m_symbol : option string;
  m_last_refreshed : option string
}.

(** A time-series body: the three possible series objects (keyed by date)
    and the meta data, each possibly absent. *)
Record ChartApiData := mkChartApiData {
  daily : option (gmap string Ohlcv);      (* 'Time Series (Daily)' *)
  weekly : option (gmap string Ohlcv);     (* 'Weekly Time Series' *)
  monthly : option (gmap string Ohlcv);    (* 'Monthly Time Series' *)
  meta_data : option ChartMeta             (* 'Meta Data' *)
}.

Record ChartData := mkChartData {
  c_symbol : option string;
  c_lastRefreshed : option string;
  c_period : string;
  c_rawData : list ChartPoint;
  c_dataPoints : nat
}.

(** [Array.prototype.sort()] on strings: code-unit order, which on ASCII
    keys is [String.leb]. *)
Fixpoint insert_key (k : string) (l : list string) : list string :=
  match l with
  | [] => [k]
  | x :: rest => if String.leb k x then k :: l else x :: insert_key k rest
  end.

Fixpoint sort_keys (l : list string) : list string :=
  match l with
  | [] => []
  | k :: rest => insert_key k (sort_keys rest)
  end.

Section Chart.
(** [parseFloat] and [parseInt] of the series fields (JS numbers, kept
    as the text JS prints for them). *)
Variables (parseFloat parseInt : string -> string).
Variable parse_date : string -> option Z.

Definition chart_point (timeSeries : gmap string Ohlcv) (date : string) : option ChartPoint :=
  match timeSeries !! date with
  | Some o => Some {| date := date; cp_price := parseFloat (o_close o);
                      cp_volume := parseInt (o_volume o); high := parseFloat (o_high o);
                      low := parseFloat (o_low o); open_ := parseFloat (o_open o) |}
  | None => None     (* unreachable: [date] is a key of [timeSeries] *)
  end.

(** formatChartData: any error is rethrown as 'Failed to format chart data'. *)
Definition formatChartData (now : Z) (now_iso : string) (apiData : ChartApiData)
    (period : string) : Outcome ChartData :=
  let selected :=
    match daily apiData with
    | Some ts => Some ts
    | None => match weekly apiData with Some ts => Some ts | None => monthly apiData end
    end in
  match selected with
  | None => Raises (Error "Failed to format chart data")
  | Some timeSeries =>
      let metaData := meta_data apiData in
      let dates := sort_keys (map fst (map_to_list timeSeries)) in
      let rawData := omap (chart_point timeSeries) dates in
      let filteredData := filterDataByPeriod parse_date now rawData period in
      Returns {|
        c_symbol := match metaData with Some m => m_symbol m | None => Some "Unknown" end;
        c_lastRefreshed :=
          match metaData with Some m => m_last_refreshed m | None => Some now_iso end;
        c_period := period;
        c_rawData := filteredData;
        c_dataPoints := length filteredData |}
  end.
End Chart.

End StockService.

(* ===================================================================== *)
(* wishlistService.js                                                    *)
(* ===================================================================== *)

Module WishlistService.
Import Wl.

(** getWishlists: [data ? JSON.parse(data) : []]; a value that is not a
    wishlist array makes a later step throw, which the callers' [catch]
    turns into the same answers as an empty collection. *)
Definition getWishlists (st : Store) : list Wishlist :=
  match st !! WISHLIST_KEY with
  | Some (SWishlists ws) => ws
  | _ => []
  end.

(** [Array.prototype.findIndex], [None] for -1. *)
Fixpoint findIndex {A} (p : A -> bool) (l : list A) : option nat :=
  match l with
  | [] => None
  | x :: rest => if p x then Some 0%nat else option_map S (findIndex p rest)
  end.

(** [===] on possibly-undefined strings ([undefined === undefined]). *)
Definition opt_str_eqb (a b : option string) : bool :=
  match a, b with
  | Some x, Some y => String.eqb x y
  | None, None => true
  | _, _ => false
  end.

(** addStockToWishlist: the [catch] block rethrows. The updated wishlist
    is written back in place at its index. *)
Definition addStockToWishlist (wishlistId : string) (stock : StockInput)
    (now_iso : string) (st : Store) : Outcome bool * Store :=
  let wishlists := getWishlists st in
  match findIndex (fun w => String.eqb (id w) wishlistId) wishlists with
  | None => (Raises (Error "Wishlist not found"), st)
  | Some wishlistIndex =>
      match wishlists !! wishlistIndex with
      | None => (Raises (Error "Wishlist not found"), st)
      | Some wishlist =>
          let stockExists :=
            existsb (fun s => opt_str_eqb (symbol s) (in_symbol stock)) (stocks wishlist) in
          if stockExists then (Raises (Error "Stock already exists in this wishlist"), st)
          else
            let stockToAdd := {|
              symbol := or_str (in_symbol stock) (in_ticker stock);
              name := in_name stock;
              price := in_price stock;
              change := in_change stock;
              addedAt := now_iso |} in
            let wishlist' := {|
              id := id wishlist;
              wl_name := wl_name wishlist;
              stocks := stocks wishlist ++ [stockToAdd];
              createdAt := createdAt wishlist;
              updatedAt := now_iso |} in
            (Returns true,
             <[WISHLIST_KEY := SWishlists (<[wishlistIndex := wishlist']> wishlists)]> st)
      end
  end.

(** removeStockFromWishlist: the [catch] block logs and resolves [false]. *)
Definition removeStockFromWishlist (wishlistId stockSymbol : string)
    (now_iso : string) (st : Store) : Outcome bool * Store :=
  let wishlists := getWishlists st in
  match findIndex (fun w => String.eqb (id w) wishlistId) wishlists with
  | None => (Returns false, st)          (* throw 'Wishlist not found', caught *)
  | Some wishlistIndex =>
      match wishlists !! wishlistIndex with
      | None => (Returns false, st)
      | Some wishlist =>
          let wishlist' := {|
            id := id wishlist;
            wl_name := wl_name wishlist;
            stocks := List.filter (fun s => negb (opt_str_eqb (symbol s) (Some stockSymbol)))
                        (stocks wishlist);
            createdAt := createdAt wishlist;
            updatedAt := now_iso |} in
          (Returns true,
           <[WISHLIST_KEY := SWishlists (<[wishlistIndex := wishlist']> wishlists)]> st)
      end
  end.

(** createWishlist: the id is [Date.now().toString()]; [js_trim] is
    [String.prototype.trim], which strips the Unicode white space and line
    terminators, left as a parameter. *)
Definition createWishlist (js_trim : string -> string) (name : string) (now : Z) (now_iso : string) (st : Store)
    : Outcome Wishlist * Store :=
  let wishlists := getWishlists st in
  let newWishlist := {|
    id := Z_to_dec now;
    wl_name := js_trim name;
    stocks := [];
    createdAt := now_iso;
    updatedAt := now_iso |} in
  (Returns newWishlist, <[WISHLIST_KEY := SWishlists (wishlists ++ [newWishlist])]> st).

(** deleteWishlist *)
Definition deleteWishlist (wishlistId : string) (st : Store) : Outcome bool * Store :=
  let filteredWishlists :=
    List.filter (fun w => negb (String.eqb (id w) wishlistId)) (getWishlists st) in
  (Returns true, <[WISHLIST_KEY := SWishlists filteredWishlists]> st).

(** getWishlistsContainingStock *)
Definition getWishlistsContainingStock (stockSymbol : string) (st : Store) : list string :=
  map id (List.filter (fun w => existsb (fun s => opt_str_eqb (symbol s) (Some stockSymbol))
                                   (stocks w)) (getWishlists st)).

(** clearAllWishlists *)
Definition clearAllWishlists (st : Store) : Outcome bool * Store :=
  (Returns true, delete WISHLIST_KEY st).

End WishlistService.

(* ===================================================================== *)
(* searchService.js                                                      *)
(* ===================================================================== *)

Module SearchService.

Record CatalogStock := mkCatalogStock {
  symbol : string;
  name : string;
  sector : string;
  exchange : string
}.

(** getStockDatabase *)
Definition getStockDatabase : list CatalogStock := [
  mkCatalogStock "AAPL" "Apple Inc." "Technology" "NASDAQ";
  mkCatalogStock "GOOGL" "Alphabet Inc." "Technology" "NASDAQ";
  mkCatalogStock "GOOG" "Alphabet Inc. Class A" "Technology" "NASDAQ";
  mkCatalogStock "MSFT" "Microsoft Corporation" "Technology" "NASDAQ";
  mkCatalogStock "AMZN" "Amazon.com Inc." "Consumer Discretionary" "NASDAQ";
  mkCatalogStock "TSLA" "Tesla Inc." "Consumer Discretionary" "NASDAQ";
  mkCatalogStock "META" "Meta Platforms Inc." "Technology" "NASDAQ";
  mkCatalogStock "NFLX" "Netflix Inc." "Communication Services" "NASDAQ";
  mkCatalogStock "NVDA" "NVIDIA Corporation" "Technology" "NASDAQ";
  mkCatalogStock "CRM" "Salesforce Inc." "Technology" "NYSE";
  mkCatalogStock "ORCL" "Oracle Corporation" "Technology" "NYSE";
  mkCatalogStock "ADBE" "Adobe Inc." "Technology" "NASDAQ";
  mkCatalogStock "PYPL" "PayPal Holdings Inc." "Financial Services" "NASDAQ";
  mkCatalogStock "INTC" "Intel Corporation" "Technology" "NASDAQ";
  mkCatalogStock "AMD" "Advanced Micro Devices Inc." "Technology" "NASDAQ";
  mkCatalogStock "QCOM" "Qualcomm Incorporated" "Technology" "NASDAQ";
  mkCatalogStock "AVGO" "Broadcom Inc." "Technology" "NASDAQ";
  mkCatalogStock "TXN" "Texas Instruments Incorporated" "Technology" "NASDAQ";
  mkCatalogStock "CSCO" "Cisco Systems Inc." "Technology" "NASDAQ";
  mkCatalogStock "ACN" "Accenture plc" "Technology" "NYSE";
  mkCatalogStock "IBM" "International Business Machines Corporation" "Technology" "NYSE";
  mkCatalogStock "UBER" "Uber Technologies Inc." "Technology" "NYSE";
  mkCatalogStock "LYFT" "Lyft Inc." "Technology" "NASDAQ";
  mkCatalogStock "SQ" "Block Inc." "Technology" "NYSE";
  mkCatalogStock "SHOP" "Shopify Inc." "Technology" "NYSE";
  mkCatalogStock "SPOT" "Spotify Technology S.A." "Communication Services" "NYSE";
  mkCatalogStock "TWTR" "Twitter Inc." "Communication Services" "NYSE";
  mkCatalogStock "SNAP" "Snap Inc." "Communication Services" "NYSE";
  mkCatalogStock "PINS" "Pinterest Inc." "Communication Services" "NYSE";
  mkCatalogStock "JPM" "JPMorgan Chase & Co." "Financial Services" "NYSE";
  mkCatalogStock "BAC" "Bank of America Corporation" "Financial Services" "NYSE";
  mkCatalogStock "WFC" "Wells Fargo & Company" "Financial Services" "NYSE";
  mkCatalogStock "C" "Citigroup Inc." "Financial Services" "NYSE";
  mkCatalogStock "GS" "The Goldman Sachs Group Inc." "Financial Services" "NYSE";
  mkCatalogStock "MS" "Morgan Stanley" "Financial Services" "NYSE";
  mkCatalogStock "V" "Visa Inc." "Financial Services" "NYSE";
  mkCatalogStock "MA" "Mastercard Incorporated" "Financial Services" "NYSE";
  mkCatalogStock "AXP" "American Express Company" "Financial Services" "NYSE";
  mkCatalogStock "JNJ" "Johnson & Johnson" "Healthcare" "NYSE";
  mkCatalogStock "PFE" "Pfizer Inc." "Healthcare" "NYSE";
  mkCatalogStock "UNH" "UnitedHealth Group Incorporated" "Healthcare" "NYSE";
  mkCatalogStock "ABBV" "AbbVie Inc." "Healthcare" "NYSE";
  mkCatalogStock "LLY" "Eli Lilly and Company" "Healthcare" "NYSE";
  mkCatalogStock "MRK" "Merck & Co. Inc." "Healthcare" "NYSE";
  mkCatalogStock "TMO" "Thermo Fisher Scientific Inc." "Healthcare" "NYSE";
  mkCatalogStock "ABT" "Abbott Laboratories" "Healthcare" "NYSE";
  mkCatalogStock "DHR" "Danaher Corporation" "Healthcare" "NYSE";
  mkCatalogStock "PG" "The Procter & Gamble Company" "Consumer Staples" "NYSE";
  mkCatalogStock "KO" "The Coca-Cola Company" "Consumer Staples" "NYSE";
  mkCatalogStock "PEP" "PepsiCo Inc." "Consumer Staples" "NASDAQ";
  mkCatalogStock "WMT" "Walmart Inc." "Consumer Staples" "NYSE";
  mkCatalogStock "COST" "Costco Wholesale Corporation" "Consumer Staples" "NASDAQ";
  mkCatalogStock "HD" "The Home Depot Inc." "Consumer Discretionary" "NYSE";
  mkCatalogStock "LOW" "Lowe's Companies Inc." "Consumer Discretionary" "NYSE";
  mkCatalogStock "MCD" "McDonald's Corporation" "Consumer Discretionary" "NYSE";
  mkCatalogStock "SBUX" "Starbucks Corporation" "Consumer Discretionary" "NASDAQ";
  mkCatalogStock "NKE" "NIKE Inc." "Consumer Discretionary" "NYSE";
  mkCatalogStock "XOM" "Exxon Mobil Corporation" "Energy" "NYSE";
  mkCatalogStock "CVX" "Chevron Corporation" "Energy" "NYSE";
  mkCatalogStock "COP" "ConocoPhillips" "Energy" "NYSE";
  mkCatalogStock "BA" "The Boeing Company" "Industrials" "NYSE";
  mkCatalogStock "GE" "General Electric Company" "Industrials" "NYSE";
  mkCatalogStock "CAT" "Caterpillar Inc." "Industrials" "NYSE";
  mkCatalogStock "VZ" "Verizon Communications Inc." "Communication Services" "NYSE";
  mkCatalogStock "T" "AT&T Inc." "Communication Services" "NYSE";
  mkCatalogStock "AMT" "American Tower Corporation" "Real Estate" "NYSE";
  mkCatalogStock "NEE" "NextEra Energy Inc." "Utilities" "NYSE";
  mkCatalogStock "LIN" "Linde plc" "Materials" "NYSE";
  mkCatalogStock "SPY" "SPDR S&P 500 ETF Trust" "ETF" "NYSE";
  mkCatalogStock "QQQ" "Invesco QQQ Trust" "ETF" "NASDAQ";
  mkCatalogStock "IWM" "iShares Russell 2000 ETF" "ETF" "NYSE";
  mkCatalogStock "VTI" "Vanguard Total Stock Market ETF" "ETF" "NYSE";
  mkCatalogStock "VOO" "Vanguard S&P 500 ETF" "ETF" "NYSE";
  mkCatalogStock "VEA" "Vanguard FTSE Developed Markets ETF" "ETF" "NYSE";
  mkCatalogStock "VWO" "Vanguard FTSE Emerging Markets ETF" "ETF" "NYSE";
  mkCatalogStock "AGG" "iShares Core U.S. Aggregate Bond ETF" "ETF" "NYSE";
  mkCatalogStock "BND" "Vanguard Total Bond Market ETF" "ETF" "NASDAQ";
  mkCatalogStock "GLD" "SPDR Gold Shares" "ETF" "NYSE"
].

(** The [matchType] tag of a result. *)
Inductive MatchType := exact_symbol | partial_symbol | name_match.

(** A result: [{ ...stock, matchType }]. *)
Definition SearchResult : Type := (CatalogStock * MatchType)%type.

(** [priority[a.matchType]] *)
Definition priority (m : MatchType) : nat :=
  match m with exact_symbol => 0 | partial_symbol => 1 | name_match => 2 end%nat.

(** [String.prototype.includes]. *)
Fixpoint includes (s q : string) : bool :=
  if String.prefix q s then true
  else match s with
       | EmptyString => false
       | String _ s' => includes s' q
       end.

(** [String.prototype.toUpperCase] on ASCII text. *)
Definition upper_ascii (c : ascii) : ascii :=
  let n := nat_of_ascii c in
  if ((97 <=? n) && (n <=? 122))%nat then ascii_of_nat (n - 32) else c.

Fixpoint toUpperCase (s : string) : string :=
  match s with
  | EmptyString => EmptyString
  | String c s' => String (upper_ascii c) (toUpperCase s')
  end.

(** [Array.prototype.sort] with the comparator
    [priority[a.matchType] - priority[b.matchType]]. The sort is stable
    (ECMAScript 2019), so every conforming engine gives the result of
    this stable insertion sort. *)
Fixpoint insert_by_priority (x : SearchResult) (l : list SearchResult) : list SearchResult :=
  match l with
  | [] => [x]
  | y :: ys =>
      if (priority (snd x) <=? priority (snd y))%nat then x :: l
      else y :: insert_by_priority x ys
  end.

Fixpoint sort_by_priority (l : list SearchResult) : list SearchResult :=
  match l with
  | [] => []
  | x :: xs => insert_by_priority x (sort_by_priority xs)
  end.

(** performLocalSearch, over a given catalog [stockDatabase]. *)
Definition performLocalSearch_in (stockDatabase : list CatalogStock) (query : string)
    : list SearchResult :=
  let exactSymbolMatch := List.find (fun stock => String.eqb (symbol stock) query) stockDatabase in
  let results0 :=
    match exactSymbolMatch with
    | Some s => [(s, exact_symbol)]
    | None => []
    end in
  let symbolMatches :=
    List.filter (fun stock => includes (symbol stock) query
                              && negb (String.eqb (symbol stock) query)) stockDatabase in
  let results1 := results0 ++ map (fun stock => (stock, partial_symbol)) symbolMatches in
  let nameMatches :=
    List.filter (fun stock => includes (toUpperCase (name stock)) query
                              && negb (existsb (fun r => String.eqb (symbol (fst r)) (symbol stock))
                                               results1)) stockDatabase in
  let results := results1 ++ map (fun stock => (stock, name_match)) nameMatches in
  sort_by_priority (firstn 20 results).

Definition performLocalSearch (query : string) : list SearchResult :=
  performLocalSearch_in getStockDatabase query.

Record PopularStock := mkPopularStock { p_symbol : string; p_name : string }.

(** getPopularStocks *)
Definition getPopularStocks : list PopularStock := [
  mkPopularStock "AAPL" "Apple Inc."; mkPopularStock "GOOGL" "Alphabet Inc.";
  mkPopularStock "MSFT" "Microsoft Corporation"; mkPopularStock "AMZN" "Amazon.com Inc.";
  mkPopularStock "TSLA" "Tesla Inc."; mkPopularStock "META" "Meta Platforms Inc.";
  mkPopularStock "NFLX" "Netflix Inc."; mkPopularStock "NVDA" "NVIDIA Corporation"
].

(** getSuggestions: the popular list for a blank query, else the first 8
    search results. [js_trim] and [js_toUpperCase] are
    [String.prototype.trim] and [String.prototype.toUpperCase] on the
    user's query (Unicode white space and case mapping), left as
    parameters. *)
Definition getSuggestions (js_trim js_toUpperCase : string -> string) (query : string)
    : list PopularStock + list SearchResult :=
  if String.eqb (js_trim query) "" then inl getPopularStocks
  else inr (firstn 8 (performLocalSearch (js_toUpperCase (js_trim query)))).

End SearchService.

(* ===================================================================== *)
(* Definitions used by the statements                                   *)
(* ===================================================================== *)

(** The fetch outcome the request timeout produces: an abort. *)
Definition is_abort {A} (o : Api.FetchOutcome A) : bool :=
  match o with
  | Api.FetchRejects e => String.eqb (err_name e) "AbortError"
  | Api.FetchResponse _ _ _ => false
  end.

(** The Gateway (apiService) call failed: a failure envelope, or a
    rejection. *)
Definition gateway_failed {A} (api : Promise (Api.Envelope A)) : Prop :=
  match api with
  | Resolved (Api.EnvOk _ _) => False
  | Resolved (Api.EnvErr _ _) => True
  | Rejected _ => True
  end.

Definition stale_movers : Movers.MoversData := {|
  Movers.metadata := Movers.MetaText "Top gainers, losers, and most actively traded US tickers";
  Movers.lastUpdated := "2026-10-16 16:15:59 US/Eastern";
  Movers.topGainers := [Movers.mkStock 1 "NVDA" "NVIDIA Corp." "$120.00" "9.1%" "$10.00" "1000"];
  Movers.topLosers := [];
  Movers.mostActive := []
|}.

Definition stale_overview : Api.ApiBody (list (string * string)) :=
  Api.mkApiBody None None [("Symbol", "AAPL"); ("Name", "Apple Inc")].

(** A store whose movers and AAPL overview entries expired at t = 300000. *)
Definition store_with_stale_entries : Store :=
  <[cache_key StockService.TOP_GAINERS_LOSERS :=
      SCache {| data := PMovers stale_movers; timestamp := 0; expiration := 300000 |}]>
  {[ cache_key (StockService.COMPANY_OVERVIEW ++ "AAPL") :=
      SCache {| data := POverview stale_overview; timestamp := 0; expiration := 300000 |} ]}.

Definition wl_aapl : Wl.WishlistStock :=
  Wl.mkWishlistStock (Some "AAPL") (Some "Apple Inc.") (Some "$175.43") (Some "+2.15%")
    "2026-10-16T10:00:00.000Z".

Definition wl_tech : Wl.Wishlist :=
  Wl.mkWishlist "1760000000000" "Tech" [wl_aapl] "2026-10-16T10:00:00.000Z"
    "2026-10-16T10:00:00.000Z".

Definition store_tech : Store := {[ WISHLIST_KEY := SWishlists [wl_tech] ]}.

(** A top-movers entry as the movers list hands it over: it has [ticker]
    and no [symbol]. *)
Definition mover_aapl : Wl.StockInput :=
  Wl.mkStockInput None (Some "AAPL") (Some "Apple Inc.") (Some "$175.43") (Some "+2.15%").

(** The entry formatStockData builds from raw entry [r] at position [i]. *)
Definition formatted_entry (fixed2 : string -> string) (i : nat) (r : Movers.RawStock)
    : Movers.Stock := {|
  Movers.id := i + 1;
  Movers.ticker := Movers.r_ticker r;
  Movers.name :=
    match StockService.lookup_name (Movers.r_ticker r) StockService.knownTickers with
    | Some n => n
    | None => (Movers.r_ticker r ++ " Inc.")%string
    end;
  Movers.price := ("$" ++ fixed2 (Movers.r_price r))%string;
  Movers.change := Movers.r_change_percentage r;
  Movers.changeAmount := ("$" ++ fixed2 (Movers.r_change_amount r))%string;
  Movers.volume := Movers.r_volume r
|}.

(** The ranking policy in the words of the spec: the exact symbol match
    (at most one), then the symbol substring matches other than the exact
    one, then the name substring matches not matched before, each group in
    catalog order, capped at 20. *)
Module SearchSpec.
Import SearchService.

Definition catalog_eqb (a b : CatalogStock) : bool :=
  String.eqb (symbol a) (symbol b) && String.eqb (name a) (name b)
  && String.eqb (sector a) (sector b) && String.eqb (exchange a) (exchange b).

Definition exact_group (db : list CatalogStock) (q : string) : list CatalogStock :=
  match List.find (fun s => String.eqb (symbol s) q) db with
  | Some s => [s]
  | None => []
  end.

Definition partial_group (db : list CatalogStock) (q : string) : list CatalogStock :=
  List.filter (fun s => includes (symbol s) q && negb (String.eqb (symbol s) q)) db.

Definition name_group (db : list CatalogStock) (q : string) : list CatalogStock :=
  List.filter (fun s => includes (toUpperCase (name s)) q
                        && negb (existsb (catalog_eqb s) (exact_group db q ++ partial_group db q)))
    db.

Definition ranked (db : list CatalogStock) (q : string) : list SearchResult :=
  firstn 20 (map (fun s => (s, exact_symbol)) (exact_group db q)
             ++ map (fun s => (s, partial_symbol)) (partial_group db q)
             ++ map (fun s => (s, name_match)) (name_group db q)).
End SearchSpec.

Definition prio_le (a b : SearchService.SearchResult) : Prop :=
  (SearchService.priority (snd a) <= SearchService.priority (snd b))%nat.

Fixpoint nodupb (l : list string) : bool :=
  match l with
  | [] => true
  | x :: rest => negb (existsb (String.eqb x) rest) && nodupb rest
  end.

(** Every key of the "cache_" namespace holds a cache item: the shape
    [cacheService.set] writes. *)
Definition cache_wf (st : Store) : Prop :=
  forall k v, st !! k = Some v -> String.prefix CACHE_PREFIX k = true -> exists it, v = SCache it.

Definition cache_wfb (st : Store) : bool :=
  forallb (fun kv => negb (String.prefix CACHE_PREFIX kv.1)
                     || match kv.2 with SCache _ => true | _ => false end) (map_to_list st).

(** No "cache_" key holds a text that JSON.parse rejects. *)
Definition no_unparsable (st : Store) : Prop :=
  forall k s, String.prefix CACHE_PREFIX k = true -> st !! k = Some (SText s) -> s = ""%string.

(** [Date.now() > expiration] for a stored value. *)
Definition expired_at (now : Z) (v : option Stored) : bool :=
  match v with Some (SCache it) => now >? expiration it | _ => false end.

(** The stores a sequence of [get] and [set] calls on one cache key
    leads to: what the stock service fetchers do to the storage. *)
Inductive touches (key : string) (st : Store) : Store -> Prop :=
| touches_refl : touches key st st
| touches_get st' now : touches key st st' -> touches key st (snd (get key now st'))
| touches_set st' d ms now : touches key st st' -> touches key st (set key d ms now st').

Definition item_at (exp : Z) : CacheItem :=
  {| data := PMovers (StockService.getFallbackData "2024-01-01T00:00:00.000Z");
     timestamp := exp - 1000; expiration := exp |}.

(** A store with an expired item, a fresh item and the wishlists. *)
Definition store_mixed : Store :=
  <[cache_key "old" := SCache (item_at 100)]>
    (<[cache_key "new" := SCache (item_at 900)]> {[ WISHLIST_KEY := SWishlists [wl_tech] ]}).

(** The same with a corrupt text under a cache key. *)
Definition store_corrupt : Store := <[cache_key "bad" := SText "{oops"]> store_mixed.

(** Strict code-unit order on strings. *)
Definition str_lt (a b : string) : Prop := String.compare a b = Lt.

(** A date passes the period filter of filterDataByPeriod. *)
Definition period_keeps (parse_date : string -> option Z) (now : Z) (period : string)
    (d : string) : Prop :=
  match StockService.periodDuration period with
  | None => True
  | Some dur => exists t, parse_date d = Some t /\ now - dur <= t
  end.

(** A stock as the search screen hands it over: it has [symbol]. *)
Definition input_msft : Wl.StockInput :=
  Wl.mkStockInput (Some "MSFT") None (Some "Microsoft Corp.") (Some "$367.12") (Some "+0.92%").

(* ===================================================================== *)
(* Examples                                                              *)
(* ===================================================================== *)

Example getCompanyName_known : StockService.getCompanyName "NVDA" = "NVIDIA Corp.".
Proof. reflexivity. Qed.

Example makeRequest_http_error :
  Api.makeRequest (A:=unit) (Api.FetchResponse false 503 None)
  = Resolved (Api.EnvErr "HTTP error! status: 503" 500).
Proof. reflexivity. Qed.

Example search_exact_first :
  map (fun r => (SearchService.symbol (fst r), snd r)) (SearchService.performLocalSearch "GOOGL")
  = [("GOOGL", SearchService.exact_symbol)].
Proof. vm_compute. reflexivity. Qed.

(* ===================================================================== *)
(* cacheService: TTL and clearAll                                        *)
(* ===================================================================== *)

Lemma multiRemove_lookup (ks : list string) (st : Store) (k : string) :
  multiRemove ks st !! k = if existsb (String.eqb k) ks then None else st !! k.
Proof.
  induction ks as [|k' ks IH]; simpl; [reflexivity|].
  destruct (String.eqb_spec k k') as [->|Hne]; simpl.
  - apply lookup_delete_eq.
  - rewrite lookup_delete_ne by congruence. exact IH.
Qed.

Lemma getAllKeys_In (st : Store) (k : string) :
  In k (getAllKeys st) <-> is_Some (st !! k).
Proof.
  unfold getAllKeys. rewrite in_map_iff. split.
  - intros [[k' v] [Heq Hin]]. simpl in Heq. subst k'.
    exists v. apply elem_of_map_to_list. apply list_elem_of_In. exact Hin.
  - intros [v Hv]. exists (k, v). split; [reflexivity|].
    apply list_elem_of_In. apply elem_of_map_to_list. exact Hv.
Qed.

Lemma clearAll_lookup (st : Store) (k : string) :
  clearAll st !! k = if String.prefix CACHE_PREFIX k then None else st !! k.
Proof.
  unfold clearAll.
  set (cks := List.filter (fun k0 => String.prefix CACHE_PREFIX k0) (getAllKeys st)).
  assert (Hmem : In k cks <-> String.prefix CACHE_PREFIX k = true /\ is_Some (st !! k)).
  { unfold cks. rewrite filter_In, getAllKeys_In. tauto. }
  assert (Hex : existsb (String.eqb k) cks = true <-> In k cks).
  { rewrite existsb_exists. split.
    - intros [k0 [Hin Heq]]. apply String.eqb_eq in Heq. subst k0. exact Hin.
    - intros Hin. exists k. split; [exact Hin | apply String.eqb_refl]. }
  destruct (String.prefix CACHE_PREFIX k) eqn:Hp.
  - destruct (st !! k) as [v|] eqn:Hk.
    + assert (Hin : In k cks) by (apply Hmem; split; [reflexivity|]; eexists; reflexivity).
      assert (Hlen : (0 <? length cks)%nat = true) by (destruct cks; [destruct Hin | reflexivity]).
      rewrite Hlen, multiRemove_lookup. apply Hex in Hin. rewrite Hin. reflexivity.
    + destruct (0 <? length cks)%nat; [|exact Hk].
      rewrite multiRemove_lookup. destruct (existsb (String.eqb k) cks); [reflexivity|exact Hk].
  - destruct (0 <? length cks)%nat; [|reflexivity].
    rewrite multiRemove_lookup.
    assert (Hf : existsb (String.eqb k) cks = false).
    { apply not_true_is_false. intros He. apply Hex, Hmem in He as [He _]. discriminate. }
    rewrite Hf. reflexivity.
Qed.

(** C4: [get] strictly after the expiration timestamp answers absent and
    deletes the stored entry; [get] at exactly the expiration timestamp
    answers the payload and leaves the store unchanged. *)
Theorem cache_get_ttl_boundary (key : string) (it : CacheItem) (now : Z) (st : Store)
    (Hentry : st !! cache_key key = Some (SCache it)) :
  (expiration it < now ->
     get key now st = (None, delete (cache_key key) st)
     /\ snd (get key now st) !! cache_key key = None) /\
  (now = expiration it -> get key now st = (Some (data it), st)).
Proof.
  unfold get. rewrite Hentry. split.
  - intros Hlt. assert (Hgt : (now >? expiration it) = true) by lia.
    rewrite Hgt. split; [reflexivity|]. simpl. unfold remove. apply lookup_delete_eq.
  - intros ->. rewrite Z.gtb_ltb, Z.ltb_irrefl. reflexivity.
Qed.

Lemma cache_get_ttl_boundary_witness :
  let it := {| data := POverview (Api.mkApiBody None None []); timestamp := 0; expiration := 100 |} in
  let st : Store := {[ cache_key "k" := SCache it ]} in
  st !! cache_key "k" = Some (SCache it) /\
  get "k" 200 st = (None, delete (cache_key "k") st) /\
  get "k" 100 st = (Some (data it), st).
Proof.
  intros it st.
  assert (H : st !! cache_key "k" = Some (SCache it)) by (unfold st; apply lookup_singleton_eq).
  split; [exact H|]. split.
  - apply (proj1 (cache_get_ttl_boundary "k" it 200 st H)). simpl. lia.
  - apply (proj2 (cache_get_ttl_boundary "k" it 100 st H)). reflexivity.
Defined.

(** C10: clearAll deletes exactly the keys starting with "cache_"; every
    other key, the wishlist key "stock_wishlists" among them, keeps its
    value. *)
Theorem clearAll_only_cache_namespace (st : Store) (k : string) :
  (String.prefix CACHE_PREFIX k = false -> clearAll st !! k = st !! k) /\
  (String.prefix CACHE_PREFIX k = true -> clearAll st !! k = None) /\
  clearAll st !! WISHLIST_KEY = st !! WISHLIST_KEY.
Proof.
  rewrite !clearAll_lookup. split; [|split].
  - intros ->. reflexivity.
  - intros ->. reflexivity.
  - reflexivity.
Qed.

(* ===================================================================== *)
(* apiService.makeRequest                                                *)
(* ===================================================================== *)

Lemma makeRequest_try_thrown_name {A} (o : Api.FetchOutcome A) (e : JsError) :
  Api.makeRequest_try o = inl e ->
  String.eqb (err_name e) "AbortError" = is_abort o.
Proof.
  destruct o as [e0|ok status [d|]]; simpl; intros H.
  - injection H as ->. reflexivity.
  - destruct ok; simpl in H; [|injection H as <-; reflexivity].
    destruct (truthy (Api.error_message d)); [injection H as <-; reflexivity|].
    destruct (truthy (Api.note d)); [injection H as <-; reflexivity|discriminate].
  - destruct ok; simpl in H; injection H as <-; reflexivity.
Qed.

(** C2 (as the code does it): makeRequest resolves with a failure
    envelope {success:false, error, status:500} for a network error (fetch
    rejects with an error that is no abort and has no [status]), a non-2xx
    HTTP status, an unparsable body, an upstream 'Error Message' or a
    rate-limit 'Note'; with {success:true, data, status} for an ok
    response whose body has neither; on the timeout abort it rejects with
    the distinct error "Request timeout - please check your internet
    connection", and that is the only way it rejects. *)
Theorem makeRequest_rejects_only_on_timeout {A : Type} :
  (forall e : JsError, err_name e <> "AbortError"%string -> err_status e = None ->
     Api.makeRequest (A:=A) (Api.FetchRejects e) = Resolved (Api.EnvErr (err_message e) 500)) /\
  (forall status json,
     Api.makeRequest (A:=A) (Api.FetchResponse false status json)
     = Resolved (Api.EnvErr ("HTTP error! status: " ++ Z_to_dec status) 500)) /\
  (forall status, exists msg,
     Api.makeRequest (A:=A) (Api.FetchResponse true status None) = Resolved (Api.EnvErr msg 500)) /\
  (forall status (d : Api.ApiBody A) m,
     Api.error_message d = Some m -> m <> ""%string ->
     Api.makeRequest (Api.FetchResponse true status (Some d)) = Resolved (Api.EnvErr m 500)) /\
  (forall status (d : Api.ApiBody A),
     truthy (Api.error_message d) = false -> truthy (Api.note d) = true ->
     Api.makeRequest (Api.FetchResponse true status (Some d))
     = Resolved (Api.EnvErr Api.RATE_LIMIT_MESSAGE 500)) /\
  (forall status (d : Api.ApiBody A),
     truthy (Api.error_message d) = false -> truthy (Api.note d) = false ->
     Api.makeRequest (Api.FetchResponse true status (Some d)) = Resolved (Api.EnvOk d status)) /\
  (forall e : JsError, err_name e = "AbortError"%string ->
     Api.makeRequest (A:=A) (Api.FetchRejects e) = Rejected (Error Api.TIMEOUT_MESSAGE)) /\
  (forall (o : Api.FetchOutcome A) e,
     Api.makeRequest o = Rejected e -> is_abort o = true /\ e = Error Api.TIMEOUT_MESSAGE).
Proof.
  split; [|split; [|split; [|split; [|split; [|split; [|split]]]]]].
  - intros e Hn Hs. unfold Api.makeRequest. simpl.
    apply String.eqb_neq in Hn. rewrite Hn. unfold Api.status_or_500. rewrite Hs. reflexivity.
  - intros status json. reflexivity.
  - intros status. eexists. reflexivity.
  - intros status d m Hm Hne. unfold Api.makeRequest. simpl. rewrite Hm. simpl.
    apply String.eqb_neq in Hne. rewrite Hne. reflexivity.
  - intros status d He Hn. unfold Api.makeRequest. simpl. rewrite He, Hn. reflexivity.
  - intros status d He Hn. unfold Api.makeRequest. simpl. rewrite He, Hn. reflexivity.
  - intros e Hn. unfold Api.makeRequest. simpl. rewrite Hn. reflexivity.
  - intros o e. unfold Api.makeRequest.
    destruct (Api.makeRequest_try o) as [e0|env] eqn:Ht; [|discriminate].
    rewrite (makeRequest_try_thrown_name o e0 Ht).
    destruct (is_abort o); [|discriminate]. intros H. injection H as <-. split; reflexivity.
Qed.

(** C2: the timeout abort makes makeRequest reject instead of resolving
    with an envelope. *)
Lemma makeRequest_timeout_rejects :
  Api.makeRequest (A:=unit) (Api.FetchRejects (mkJsError "AbortError" "Aborted" None))
  = Rejected (Error Api.TIMEOUT_MESSAGE).
Proof. reflexivity. Qed.

(* ===================================================================== *)
(* stockService: movers fallback chain                                   *)
(* ===================================================================== *)

Lemma get_miss (key : string) (now : Z) (st : Store) :
  st !! cache_key key = None -> get key now st = (None, st).
Proof. intros H. unfold get. rewrite H. reflexivity. Qed.

(** C3: with a failing Gateway and no cache entry under the movers key,
    fetchTopGainersLosers resolves with the built-in fallback dataset, whose
    entries are AAPL, GOOGL, MSFT and TSLA. *)
Theorem movers_fallback_dataset (fixed2 : string -> string) (forceRefresh : bool)
    (now : Z) (now_iso : string) (api : Promise (Api.Envelope Movers.RawMovers)) (st : Store)
    (Hmiss : st !! cache_key StockService.TOP_GAINERS_LOSERS = None)
    (Hfail : gateway_failed api) :
  StockService.fetchTopGainersLosers fixed2 forceRefresh now now_iso api st
    = (Returns (PMovers (StockService.getFallbackData now_iso)), st) /\
  map Movers.ticker (Movers.mostActive (StockService.getFallbackData now_iso))
    = ["AAPL"; "GOOGL"; "MSFT"; "TSLA"] /\
  map Movers.ticker (Movers.topGainers (StockService.getFallbackData now_iso))
    = ["AAPL"; "GOOGL"; "MSFT"] /\
  map Movers.ticker (Movers.topLosers (StockService.getFallbackData now_iso))
    = ["GOOGL"; "MSFT"; "TSLA"].
Proof.
  split; [|repeat split].
  unfold StockService.fetchTopGainersLosers.
  assert (H0 : (if forceRefresh then (None, st)
                else get StockService.TOP_GAINERS_LOSERS now st) = (None, st))
    by (destruct forceRefresh; [reflexivity | apply get_miss, Hmiss]).
  rewrite H0.
  destruct api as [[resp status|err status]|e]; simpl in Hfail; [contradiction| |];
    rewrite (get_miss _ _ _ Hmiss); reflexivity.
Qed.

Lemma movers_fallback_dataset_witness :
  (∅ : Store) !! cache_key StockService.TOP_GAINERS_LOSERS = None /\
  StockService.fetchTopGainersLosers (fun s => s) false 0 "2026-10-17T00:00:00.000Z"
    (Resolved (Api.EnvErr "HTTP error! status: 503" 500)) ∅
  = (Returns (PMovers (StockService.getFallbackData "2026-10-17T00:00:00.000Z")), ∅).
Proof.
  split; [reflexivity|].
  apply (movers_fallback_dataset (fun s => s) false 0 "2026-10-17T00:00:00.000Z"
           (Resolved (Api.EnvErr "HTTP error! status: 503" 500)) ∅); simpl; auto.
Defined.

(* ===================================================================== *)
(* stockService: fallback to an expired cache entry                      *)
(* ===================================================================== *)

(** C1: at t = 400000, with the Gateway failing, the expired entries are
    not returned: the movers fetch answers the built-in fallback dataset
    and the overview fetch rejects, and both expired entries are deleted
    from the store by the first cache read. *)
Theorem stale_entry_not_returned_on_gateway_failure :
  StockService.fetchTopGainersLosers (fun s => s) false 400000 "2026-10-17T00:00:00.000Z"
    (Resolved (Api.EnvErr "HTTP error! status: 503" 500)) store_with_stale_entries
  = (Returns (PMovers (StockService.getFallbackData "2026-10-17T00:00:00.000Z")),
     {[ cache_key (StockService.COMPANY_OVERVIEW ++ "AAPL") :=
         SCache {| data := POverview stale_overview; timestamp := 0; expiration := 300000 |} ]})
  /\ PMovers (StockService.getFallbackData "2026-10-17T00:00:00.000Z") <> PMovers stale_movers
  /\ StockService.fetchCompanyOverview "AAPL" false 400000
       (Resolved (Api.EnvErr "HTTP error! status: 503" 500)) store_with_stale_entries
     = (Raises (Error "HTTP error! status: 503"),
        <[cache_key StockService.TOP_GAINERS_LOSERS :=
            SCache {| data := PMovers stale_movers; timestamp := 0; expiration := 300000 |}]> ∅).
Proof.
  split; [|split].
  - vm_compute. reflexivity.
  - intros H. injection H as H. discriminate.
  - vm_compute. reflexivity.
Qed.

(* ===================================================================== *)
(* wishlistService                                                       *)
(* ===================================================================== *)

(** C5: a stock given by [ticker] whose ticker is already in the wishlist
    is appended a second time: the duplicate check compares only
    [symbol], while the stored record takes [symbol || ticker]. *)
Theorem addStock_ticker_duplicate_accepted :
  let res := WishlistService.addStockToWishlist "1760000000000" mover_aapl
               "2026-10-17T00:00:00.000Z" store_tech in
  fst res = Returns true /\
  map Wl.symbol (flat_map Wl.stocks (WishlistService.getWishlists (snd res)))
    = [Some "AAPL"; Some "AAPL"].
Proof. vm_compute. split; reflexivity. Qed.

(** C6: an unknown wishlist id makes removeStockFromWishlist resolve
    [false], not raise a "not found" error. *)
Lemma removeStock_unknown_id_not_raised :
  WishlistService.removeStockFromWishlist "no-such-id" "AAPL" "2026-10-17T00:00:00.000Z" store_tech
  = (Returns false, store_tech).
Proof. vm_compute. reflexivity. Qed.

Lemma findIndex_Some {A} (p : A -> bool) (l : list A) (i : nat) :
  WishlistService.findIndex p l = Some i -> exists x, l !! i = Some x /\ p x = true.
Proof.
  revert i. induction l as [|y l IH]; simpl; intros i H; [discriminate|].
  destruct (p y) eqn:Hp.
  - injection H as <-. exists y. split; [reflexivity | exact Hp].
  - destruct (WishlistService.findIndex p l) as [j|] eqn:Hj; simpl in H; [|discriminate].
    injection H as <-. apply (IH j eq_refl).
Qed.

Lemma getWishlists_insert (ws : list Wl.Wishlist) (st : Store) :
  WishlistService.getWishlists (<[WISHLIST_KEY := SWishlists ws]> st) = ws.
Proof. unfold WishlistService.getWishlists. rewrite lookup_insert_eq. reflexivity. Qed.

(** addStockToWishlist refuses a stock whose [symbol] field equals the
    [symbol] of a stock already in the list, and leaves the store as it
    was. *)
Lemma addStock_same_symbol_rejected (wishlistId : string) (stock : Wl.StockInput)
    (now_iso : string) (st : Store) (i : nat) (w : Wl.Wishlist)
    (Hidx : WishlistService.findIndex (fun w => String.eqb (Wl.id w) wishlistId)
              (WishlistService.getWishlists st) = Some i)
    (Hw : WishlistService.getWishlists st !! i = Some w)
    (Hdup : existsb (fun s => WishlistService.opt_str_eqb (Wl.symbol s) (Wl.in_symbol stock))
              (Wl.stocks w) = true) :
  WishlistService.addStockToWishlist wishlistId stock now_iso st
  = (Raises (Error "Stock already exists in this wishlist"), st).
Proof.
  unfold WishlistService.addStockToWishlist. rewrite Hidx, Hw, Hdup. reflexivity.
Qed.

(** C6 (as the code does it): for an unknown wishlist id,
    removeStockFromWishlist resolves [false] and writes nothing; for a
    known id it resolves [true] and persists the collection in which that
    wishlist (same id) has lost exactly the stocks whose symbol is the
    given one (none lost when absent) and [updatedAt] is the current
    time, all other wishlists unchanged. *)
Theorem removeStock_outcomes (wishlistId stockSymbol now_iso : string) (st : Store) :
  let ws := WishlistService.getWishlists st in
  let res := WishlistService.removeStockFromWishlist wishlistId stockSymbol now_iso st in
  match WishlistService.findIndex (fun w => String.eqb (Wl.id w) wishlistId) ws with
  | None => res = (Returns false, st)
  | Some i =>
      fst res = Returns true /\
      snd res !! WISHLIST_KEY <> None /\
      exists w w',
        ws !! i = Some w /\ Wl.id w = wishlistId /\
        WishlistService.getWishlists (snd res) = <[i := w']> ws /\
        Wl.id w' = Wl.id w /\ Wl.updatedAt w' = now_iso /\
        (forall s, In s (Wl.stocks w') <-> In s (Wl.stocks w) /\ Wl.symbol s <> Some stockSymbol) /\
        (Forall (fun s => Wl.symbol s <> Some stockSymbol) (Wl.stocks w) ->
           Wl.stocks w' = Wl.stocks w)
  end.
Proof.
  intros ws res. unfold res, WishlistService.removeStockFromWishlist. fold ws.
  destruct (WishlistService.findIndex (fun w => String.eqb (Wl.id w) wishlistId) ws)
    as [i|] eqn:Hidx; [|reflexivity].
  destruct (findIndex_Some _ _ _ Hidx) as [w [Hw Hid]]. rewrite Hw. simpl.
  split; [reflexivity|]. split; [rewrite lookup_insert_eq; discriminate|].
  eexists w, _. split; [reflexivity|]. split; [apply String.eqb_eq, Hid|].
  split; [apply getWishlists_insert|]. simpl.
  split; [reflexivity|]. split; [reflexivity|]. split.
  - intros s. rewrite filter_In. split.
    + intros [Hin Hne]. split; [exact Hin|]. intros Heq. rewrite Heq in Hne. simpl in Hne.
      rewrite String.eqb_refl in Hne. discriminate.
    + intros [Hin Hne]. split; [exact Hin|]. apply negb_true_iff.
      destruct (Wl.symbol s) as [x|]; simpl; [|reflexivity].
      apply String.eqb_neq. congruence.
  - intros Hall. induction Hall as [|s ss Hs Hall IH]; [reflexivity|]. simpl.
    assert (Hb : WishlistService.opt_str_eqb (Wl.symbol s) (Some stockSymbol) = false).
    { destruct (Wl.symbol s) as [x|]; simpl; [|reflexivity]. apply String.eqb_neq. congruence. }
    rewrite Hb. simpl. f_equal. exact IH.
Qed.

(* ===================================================================== *)
(* stockService: formatStockData and filterDataByPeriod                  *)
(* ===================================================================== *)

Lemma formatStockList_from_nth (fixed2 : string -> string) (raws : list Movers.RawStock)
    (k i : nat) :
  nth_error (StockService.formatStockList_from fixed2 k raws) i
  = option_map (formatted_entry fixed2 (k + i)) (nth_error raws i).
Proof.
  revert k i. induction raws as [|r raws IH]; intros k i; [destruct i; reflexivity|].
  destruct i as [|i]; simpl.
  - rewrite Nat.add_0_r. reflexivity.
  - rewrite IH. f_equal. f_equal. lia.
Qed.

Lemma formatStockList_from_length (fixed2 : string -> string) (raws : list Movers.RawStock)
    (k : nat) :
  length (StockService.formatStockList_from fixed2 k raws) = length raws.
Proof. revert k. induction raws; intros k; simpl; [reflexivity|]. f_equal. apply IHraws. Qed.

(** C7 (as the code does it): the entry at position [i] (from 0) of a
    movers list becomes id [i + 1], its ticker, the name from the static
    table or else "<ticker> Inc.", price and changeAmount as "$" followed
    by the 2-decimal rendering, change (the percentage) and volume as
    given; the three lists of the response are each formatted this way. *)
Theorem formatStockData_entry (fixed2 : string -> string) (raws : list Movers.RawStock)
    (i : nat) (r : Movers.RawStock) (Hr : nth_error raws i = Some r) :
  nth_error (StockService.formatStockList fixed2 raws) i = Some (formatted_entry fixed2 i r) /\
  length (StockService.formatStockList fixed2 raws) = length raws /\
  (forall apiData : Movers.RawMovers,
     Movers.topGainers (StockService.formatStockData fixed2 apiData)
       = StockService.formatStockList fixed2 (default [] (Movers.top_gainers apiData)) /\
     Movers.topLosers (StockService.formatStockData fixed2 apiData)
       = StockService.formatStockList fixed2 (default [] (Movers.top_losers apiData)) /\
     Movers.mostActive (StockService.formatStockData fixed2 apiData)
       = StockService.formatStockList fixed2 (default [] (Movers.most_actively_traded apiData))).
Proof.
  split; [|split].
  - unfold StockService.formatStockList. rewrite formatStockList_from_nth, Hr. reflexivity.
  - apply formatStockList_from_length.
  - intros apiData. repeat split.
Qed.

Lemma formatStockData_entry_witness :
  let raws := [Movers.mkRawStock "AAPL" "175.4300" "3.6900" "2.15%" "28456789";
               Movers.mkRawStock "XYZ" "1.5000" "0.1000" "7.1%" "1000"] in
  nth_error raws 1 = Some (Movers.mkRawStock "XYZ" "1.5000" "0.1000" "7.1%" "1000") /\
  nth_error (StockService.formatStockList (fun s => s) raws) 1
    = Some (formatted_entry (fun s => s) 1 (Movers.mkRawStock "XYZ" "1.5000" "0.1000" "7.1%" "1000")).
Proof.
  intros raws. split; [reflexivity|].
  apply (formatStockData_entry (fun s => s) raws 1
           (Movers.mkRawStock "XYZ" "1.5000" "0.1000" "7.1%" "1000")). reflexivity.
Defined.

(** C7: a ticker absent from the table is named "<ticker> Inc.", not
    "<ticker> Corp.". *)
Lemma unknown_ticker_named_inc :
  map Movers.name
    (StockService.formatStockList (fun s => s) [Movers.mkRawStock "XYZ" "1.5" "0.1" "7.1%" "1000"])
  = ["XYZ Inc."] /\ "XYZ Inc." <> "XYZ Corp.".
Proof. split; [reflexivity | discriminate]. Qed.

Lemma filter_sublist {A} (f : A -> bool) (l : list A) : sublist (List.filter f l) l.
Proof.
  induction l as [|x l IH]; simpl; [constructor|].
  destruct (f x); [apply sublist_skip | apply sublist_cons]; exact IH.
Qed.

Lemma filter_StronglySorted {A} (R : A -> A -> Prop) (f : A -> bool) (l : list A) :
  StronglySorted R l -> StronglySorted R (List.filter f l).
Proof.
  induction l as [|x l IH]; simpl; intros H; [constructor|].
  apply StronglySorted_inv in H as [Hs Hf].
  destruct (f x); [|apply IH, Hs].
  constructor; [apply IH, Hs|].
  apply List.Forall_forall. intros y Hy. apply filter_In in Hy as [Hy _].
  rewrite List.Forall_forall in Hf. apply Hf, Hy.
Qed.

(** C8: for 1W, 1M, 3M, 6M, 1Y, 5Y (7, 30, 90, 180, 365, 5 x 365 days)
    filterDataByPeriod keeps exactly the points whose date is at or after
    [now - duration], as a subsequence of the input (so an input ascending
    by date stays ascending); any other period returns the input as is. *)
Theorem filterDataByPeriod_cutoff (parse_date : string -> option Z) (now : Z)
    (data : list StockService.ChartPoint) (period : string) :
  let out := StockService.filterDataByPeriod parse_date now data period in
  match StockService.periodDuration period with
  | None => out = data
  | Some d =>
      (forall x, In x out <->
         In x data /\ exists t, parse_date (StockService.date x) = Some t /\ now - d <= t) /\
      sublist out data /\
      (forall R, StronglySorted R data -> StronglySorted R out)
  end /\
  StockService.periodDuration "1W" = Some (7 * StockService.DAY) /\
  StockService.periodDuration "1M" = Some (30 * StockService.DAY) /\
  StockService.periodDuration "3M" = Some (90 * StockService.DAY) /\
  StockService.periodDuration "6M" = Some (180 * StockService.DAY) /\
  StockService.periodDuration "1Y" = Some (365 * StockService.DAY) /\
  StockService.periodDuration "5Y" = Some (5 * 365 * StockService.DAY) /\
  StockService.DAY = 24 * 60 * 60 * 1000 /\
  (StockService.periodDuration period = None <->
     ~ In period ["1W"; "1M"; "3M"; "6M"; "1Y"; "5Y"]).
Proof.
  intros out. split; [|repeat split].
  - unfold out, StockService.filterDataByPeriod.
    destruct (StockService.periodDuration period) as [d|]; [|reflexivity].
    split; [|split].
    + intros x. rewrite filter_In. split.
      * intros [Hin Hp]. split; [exact Hin|].
        destruct (parse_date (StockService.date x)) as [t|]; [|discriminate].
        exists t. split; [reflexivity | lia].
      * intros [Hin [t [Ht Hle]]]. split; [exact Hin|]. rewrite Ht. lia.
    + apply filter_sublist.
    + intros R. apply filter_StronglySorted.
  - unfold StockService.periodDuration.
    intros H Hin. simpl in Hin.
    destruct Hin as [<-|[<-|[<-|[<-|[<-|[<-|[]]]]]]]; discriminate.
  - unfold StockService.periodDuration. intros Hn.
    destruct (String.eqb_spec period "1W") as [->|H1]; [exfalso; apply Hn; left; reflexivity|].
    destruct (String.eqb_spec period "1M") as [->|H2]; [exfalso; apply Hn; simpl; tauto|].
    destruct (String.eqb_spec period "3M") as [->|H3]; [exfalso; apply Hn; simpl; tauto|].
    destruct (String.eqb_spec period "6M") as [->|H4]; [exfalso; apply Hn; simpl; tauto|].
    destruct (String.eqb_spec period "1Y") as [->|H5]; [exfalso; apply Hn; simpl; tauto|].
    destruct (String.eqb_spec period "5Y") as [->|H6]; [exfalso; apply Hn; simpl; tauto|].
    reflexivity.
Qed.

(* ===================================================================== *)
(* searchService.performLocalSearch: the ranking policy                  *)
(* ===================================================================== *)

Lemma sort_by_priority_sorted_id (l : list SearchService.SearchResult) :
  Sorted prio_le l -> SearchService.sort_by_priority l = l.
Proof.
  induction l as [|x xs IH]; simpl; intros H; [reflexivity|].
  apply Sorted_inv in H as [Hs Hhd]. rewrite (IH Hs).
  destruct xs as [|y ys]; simpl; [reflexivity|].
  apply HdRel_inv in Hhd. unfold prio_le in Hhd.
  apply Nat.leb_le in Hhd. rewrite Hhd. reflexivity.
Qed.

Lemma firstn_Sorted {A} (R : A -> A -> Prop) (n : nat) (l : list A) :
  Sorted R l -> Sorted R (firstn n l).
Proof.
  revert n. induction l as [|x xs IH]; intros n H; [destruct n; constructor|].
  destruct n as [|n]; simpl; [constructor|].
  apply Sorted_inv in H as [Hs Hhd]. constructor; [apply IH, Hs|].
  destruct xs as [|y ys]; [destruct n; constructor|].
  destruct n as [|n]; simpl; [constructor|]. constructor. apply (HdRel_inv Hhd).
Qed.

Lemma StronglySorted_app {A} (R : A -> A -> Prop) (l1 l2 : list A) :
  StronglySorted R l1 -> StronglySorted R l2 ->
  (forall x y, In x l1 -> In y l2 -> R x y) -> StronglySorted R (l1 ++ l2).
Proof.
  induction l1 as [|x l1 IH]; simpl; intros H1 H2 Hxy; [exact H2|].
  apply StronglySorted_inv in H1 as [Hs Hf]. constructor.
  - apply IH; [exact Hs | exact H2 | intros a b Ha Hb; apply Hxy; [right|]; assumption].
  - apply List.Forall_forall. intros y Hy. apply in_app_or in Hy as [Hy|Hy].
    + rewrite List.Forall_forall in Hf. apply Hf, Hy.
    + apply Hxy; [left; reflexivity | exact Hy].
Qed.

Lemma StronglySorted_tagged (t : SearchService.MatchType) (l : list SearchService.CatalogStock) :
  StronglySorted prio_le (map (fun s => (s, t)) l).
Proof.
  induction l as [|x l IH]; simpl; constructor; [exact IH|].
  apply List.Forall_forall. intros y Hy. apply in_map_iff in Hy as [z [<- _]].
  unfold prio_le. simpl. lia.
Qed.

Lemma ranked_groups_sorted (db : list SearchService.CatalogStock) (q : string) :
  Sorted prio_le (map (fun s => (s, SearchService.exact_symbol)) (SearchSpec.exact_group db q)
                  ++ map (fun s => (s, SearchService.partial_symbol)) (SearchSpec.partial_group db q)
                  ++ map (fun s => (s, SearchService.name_match)) (SearchSpec.name_group db q)).
Proof.
  apply StronglySorted_Sorted.
  apply StronglySorted_app; [apply StronglySorted_tagged| |].
  - apply StronglySorted_app; [apply StronglySorted_tagged | apply StronglySorted_tagged|].
    intros x y Hx Hy. apply in_map_iff in Hx as [a [<- _]]. apply in_map_iff in Hy as [b [<- _]].
    unfold prio_le. simpl. lia.
  - intros x y Hx Hy. apply in_map_iff in Hx as [a [<- _]].
    unfold prio_le. simpl. lia.
Qed.

Lemma catalog_eqb_true (a b : SearchService.CatalogStock) :
  SearchSpec.catalog_eqb a b = true <-> a = b.
Proof.
  unfold SearchSpec.catalog_eqb. rewrite !andb_true_iff, !String.eqb_eq. split.
  - destruct a, b; simpl. intros [[[-> ->] ->] ->]. reflexivity.
  - intros ->. tauto.
Qed.

Lemma nodup_symbol_inj (db : list SearchService.CatalogStock) (r s : SearchService.CatalogStock) :
  List.NoDup (map SearchService.symbol db) -> In r db -> In s db ->
  SearchService.symbol r = SearchService.symbol s -> r = s.
Proof.
  induction db as [|x db IH]; simpl; intros Hnd Hr Hs Heq; [contradiction|].
  inversion Hnd as [|? ? Hnin Hnd']; subst.
  destruct Hr as [<-|Hr]; destruct Hs as [<-|Hs].
  - reflexivity.
  - exfalso. apply Hnin. rewrite Heq. apply in_map, Hs.
  - exfalso. apply Hnin. rewrite <- Heq. apply in_map, Hr.
  - apply IH; assumption.
Qed.

Lemma exact_group_in (db : list SearchService.CatalogStock) (q : string) (s : SearchService.CatalogStock) :
  In s (SearchSpec.exact_group db q) -> In s db.
Proof.
  unfold SearchSpec.exact_group.
  destruct (List.find _ db) as [x|] eqn:Hf; simpl; [|contradiction].
  intros [<-|[]]. apply (find_some _ _ Hf).
Qed.

(** The code's "already in results, by symbol" test is the spec's "already
    matched" test on a catalog without repeated symbols. *)
Lemma performLocalSearch_in_ranked (db : list SearchService.CatalogStock) (q : string) :
  List.NoDup (map SearchService.symbol db) ->
  SearchService.performLocalSearch_in db q = SearchSpec.ranked db q.
Proof.
  intros Hnd. unfold SearchService.performLocalSearch_in.
  set (E := SearchSpec.exact_group db q). set (P := SearchSpec.partial_group db q).
  assert (HE : match List.find (fun stock => String.eqb (SearchService.symbol stock) q) db with
               | Some s => [(s, SearchService.exact_symbol)] | None => [] end
               = map (fun s => (s, SearchService.exact_symbol)) E).
  { unfold E, SearchSpec.exact_group. destruct (List.find _ db); reflexivity. }
  rewrite HE. fold (SearchSpec.partial_group db q). fold P.
  assert (HN : List.filter (fun stock => SearchService.includes (SearchService.toUpperCase
                  (SearchService.name stock)) q
                  && negb (existsb (fun r => String.eqb (SearchService.symbol (fst r))
                                              (SearchService.symbol stock))
                      (map (fun s => (s, SearchService.exact_symbol)) E
                       ++ map (fun s => (s, SearchService.partial_symbol)) P))) db
               = SearchSpec.name_group db q).
  { unfold SearchSpec.name_group. fold E P. apply filter_ext_in. intros s Hs. f_equal. f_equal.
    apply eq_true_iff_eq. rewrite !existsb_exists. split.
    - intros [r [Hr Heq]]. apply String.eqb_eq in Heq.
      assert (Hfst : In (fst r) (E ++ P)).
      { apply in_app_or in Hr as [Hr|Hr]; apply in_map_iff in Hr as [a [<- Ha]];
          apply in_or_app; [left|right]; exact Ha. }
      exists (fst r). split; [exact Hfst|].
      apply catalog_eqb_true. symmetry. apply (nodup_symbol_inj db); try assumption.
      apply in_app_or in Hfst as [Hf|Hf]; [apply (exact_group_in db q), Hf|].
      apply filter_In in Hf as [Hf _]. exact Hf.
    - intros [r [Hr Heq]]. apply catalog_eqb_true in Heq. subst r.
      apply in_app_or in Hr as [Hr|Hr].
      + exists (s, SearchService.exact_symbol). split; [|apply String.eqb_refl].
        apply in_or_app. left. apply in_map_iff. exists s. split; [reflexivity|exact Hr].
      + exists (s, SearchService.partial_symbol). split; [|apply String.eqb_refl].
        apply in_or_app. right. apply in_map_iff. exists s. split; [reflexivity|exact Hr]. }
  rewrite <- app_assoc, HN.
  apply sort_by_priority_sorted_id, firstn_Sorted, ranked_groups_sorted.
Qed.

Lemma nodupb_NoDup (l : list string) : nodupb l = true -> List.NoDup l.
Proof.
  induction l as [|x l IH]; simpl; intros H; [constructor|].
  apply andb_true_iff in H as [Hn Hr]. constructor; [|apply IH, Hr].
  intros Hin. apply negb_true_iff in Hn.
  assert (Ht : existsb (String.eqb x) l = true)
    by (apply existsb_exists; exists x; split; [exact Hin | apply String.eqb_refl]).
  congruence.
Qed.

(** C9: performLocalSearch returns at most 20 results: the exact symbol
    match (at most one), then the other symbol substring matches, then the
    name substring matches not already matched, each group in catalog
    order; the list is ordered by match-type priority
    exact_symbol (0) < partial_symbol (1) < name (2). *)
Theorem performLocalSearch_ranking (query : string) :
  let db := SearchService.getStockDatabase in
  let res := SearchService.performLocalSearch query in
  res = SearchSpec.ranked db query /\
  (length res <= 20)%nat /\
  Sorted prio_le res /\
  (length (SearchSpec.exact_group db query) <= 1)%nat /\
  sublist (SearchSpec.partial_group db query) db /\
  sublist (SearchSpec.name_group db query) db.
Proof.
  intros db res.
  assert (Hnd : List.NoDup (map SearchService.symbol db)).
  { apply nodupb_NoDup. vm_compute. reflexivity. }
  assert (Hr : res = SearchSpec.ranked db query) by apply performLocalSearch_in_ranked, Hnd.
  split; [exact Hr|]. split; [|split; [|split; [|split]]].
  - rewrite Hr. unfold SearchSpec.ranked. apply firstn_le_length.
  - rewrite Hr. apply firstn_Sorted, ranked_groups_sorted.
  - unfold SearchSpec.exact_group. destruct (List.find _ db); simpl; lia.
  - apply filter_sublist.
  - apply filter_sublist.
Qed.

(* ===================================================================== *)
(* cacheService: set, get, isValid, clearExpired, getStats                *)
(* ===================================================================== *)

Lemma existsb_eqb_In (k : string) (ks : list string) :
  existsb (String.eqb k) ks = true <-> In k ks.
Proof.
  rewrite existsb_exists. split.
  - intros [k0 [Hin Heq]]. apply String.eqb_eq in Heq. subst k0. exact Hin.
  - intros Hin. exists k. split; [exact Hin | apply String.eqb_refl].
Qed.

Lemma prefix_app (p s : string) : String.prefix p (p ++ s) = true.
Proof.
  induction p as [|a p IH]; simpl; [destruct s; reflexivity|].
  destruct (ascii_dec a a) as [_|Hn]; [exact IH | contradiction].
Qed.

Lemma cache_key_prefix (key : string) : String.prefix CACHE_PREFIX (cache_key key) = true.
Proof. apply prefix_app. Qed.

Lemma wishlist_key_not_cache : String.prefix CACHE_PREFIX WISHLIST_KEY = false.
Proof. reflexivity. Qed.

Lemma cacheKeysOf_In (st : Store) (k : string) :
  In k (cacheKeysOf st) <-> String.prefix CACHE_PREFIX k = true /\ is_Some (st !! k).
Proof. unfold cacheKeysOf. rewrite filter_In, getAllKeys_In. tauto. Qed.

Lemma cache_wfb_spec (st : Store) : cache_wfb st = true -> cache_wf st.
Proof.
  unfold cache_wfb. rewrite forallb_forall. intros H k v Hk Hp.
  assert (Hin : In (k, v) (map_to_list st)).
  { apply list_elem_of_In. apply elem_of_map_to_list. exact Hk. }
  specialize (H _ Hin). simpl in H. rewrite Hp in H. simpl in H.
  destruct v as [it| |]; [exists it; reflexivity | discriminate | discriminate].
Qed.

Lemma cache_wf_no_unparsable (st : Store) : cache_wf st -> no_unparsable st.
Proof.
  intros H k s Hp Hk. destruct (H k _ Hk Hp) as [it Hit]. discriminate.
Qed.

Lemma cache_wf_delete (st : Store) (k : string) : cache_wf st -> cache_wf (delete k st).
Proof.
  intros H k' v Hk Hp. destruct (String.eqb_spec k k') as [->|Hne].
  - rewrite lookup_delete_eq in Hk. discriminate.
  - rewrite lookup_delete_ne in Hk by exact Hne. exact (H k' v Hk Hp).
Qed.

Lemma cache_wf_set (key : string) (d : Payload) (ms now : Z) (st : Store) :
  cache_wf st -> cache_wf (set key d ms now st).
Proof.
  intros H k v Hk Hp. unfold set in Hk.
  destruct (String.eqb_spec (cache_key key) k) as [<-|Hne].
  - rewrite lookup_insert_eq in Hk. injection Hk as <-. eexists. reflexivity.
  - rewrite lookup_insert_ne in Hk by exact Hne. exact (H k v Hk Hp).
Qed.

Lemma get_store (key : string) (now : Z) (st : Store) :
  snd (get key now st) = st \/ snd (get key now st) = remove key st.
Proof.
  unfold get. destruct (st !! cache_key key) as [[it| |]|]; simpl; try (left; reflexivity).
  destruct (now >? expiration it); [right | left]; reflexivity.
Qed.

Lemma cache_wf_get (key : string) (now : Z) (st : Store) :
  cache_wf st -> cache_wf (snd (get key now st)).
Proof.
  intros H. destruct (get_store key now st) as [->| ->]; [exact H | apply cache_wf_delete, H].
Qed.

Lemma get_frame (key : string) (now : Z) (st : Store) (k : string) :
  k <> cache_key key -> snd (get key now st) !! k = st !! k.
Proof.
  intros Hne. destruct (get_store key now st) as [->| ->]; [reflexivity|].
  unfold remove. apply lookup_delete_ne. congruence.
Qed.

Lemma set_frame (key : string) (d : Payload) (ms now : Z) (st : Store) (k : string) :
  k <> cache_key key -> set key d ms now st !! k = st !! k.
Proof. intros Hne. unfold set. apply lookup_insert_ne. congruence. Qed.

Lemma scanExpired_ok (now : Z) (st : Store) (ks : list string) :
  (forall k s, In k ks -> st !! k = Some (SText s) -> s = ""%string) ->
  scanExpired now st ks = Some (List.filter (fun k => expired_at now (st !! k)) ks).
Proof.
  induction ks as [|k ks IH]; intros H; simpl; [reflexivity|].
  assert (IH' : scanExpired now st ks = Some (List.filter (fun k => expired_at now (st !! k)) ks))
    by (apply IH; intros k' s Hin; apply H; right; exact Hin).
  destruct (st !! k) as [[it|ws|s]|] eqn:Hk; simpl.
  - rewrite IH'. reflexivity.
  - exact IH'.
  - rewrite (H k s (or_introl eq_refl) Hk). simpl. exact IH'.
  - exact IH'.
Qed.

Lemma scanExpired_abort (now : Z) (st : Store) (ks : list string) (k s : string) :
  In k ks -> st !! k = Some (SText s) -> s <> ""%string -> scanExpired now st ks = None.
Proof.
  intros Hin Hk Hs. induction ks as [|k0 ks IH]; [destruct Hin|].
  simpl. destruct Hin as [->|Hin].
  - rewrite Hk. apply String.eqb_neq in Hs. rewrite Hs. reflexivity.
  - rewrite (IH Hin). destruct (st !! k0) as [[it|ws|s0]|]; simpl; try reflexivity.
    destruct (String.eqb s0 ""); reflexivity.
Qed.

Lemma clearExpired_lookup (now : Z) (st : Store) (k : string) :
  no_unparsable st ->
  clearExpired now st !! k =
    if String.prefix CACHE_PREFIX k && expired_at now (st !! k) then None else st !! k.
Proof.
  intros H. unfold clearExpired. rewrite scanExpired_ok.
  2:{ intros k' s Hin Hk. apply cacheKeysOf_In in Hin as [Hp _]. exact (H k' s Hp Hk). }
  set (ek := List.filter (fun k0 => expired_at now (st !! k0)) (cacheKeysOf st)).
  assert (E : (if (0 <? length ek)%nat then multiRemove ek st else st) = multiRemove ek st)
    by (destruct ek; reflexivity).
  rewrite E, multiRemove_lookup.
  replace (existsb (String.eqb k) ek)
    with (String.prefix CACHE_PREFIX k && expired_at now (st !! k)); [reflexivity|].
  apply eq_true_iff_eq. rewrite andb_true_iff, existsb_eqb_In. unfold ek.
  rewrite filter_In, cacheKeysOf_In. split.
  - intros [Hp He]. split; [split; [exact Hp|]|exact He].
    destruct (st !! k); [eexists; reflexivity | discriminate].
  - intros [[Hp _] He]. split; assumption.
Qed.

Lemma scanStats_sum (stored_length : Stored -> nat) (now : Z) (st : Store) (ks : list string) :
  forall t va ex sz r,
    t = (va + ex)%nat -> scanStats stored_length now st ks (t, va, ex, sz) = Some r ->
    let '(t', va', ex', _) := r in t' = (va' + ex')%nat.
Proof.
  induction ks as [|k ks IH]; simpl; intros t va ex sz r Ht Hs.
  - injection Hs as <-. exact Ht.
  - destruct (st !! k) as [v|].
    + destruct v as [it|ws|s].
      * destruct (now <=? expiration it);
          (eapply IH; [|exact Hs]); lia.
      * eapply IH; [|exact Hs]. lia.
      * destruct (String.eqb s ""); [|discriminate]. eapply IH; [exact Ht|exact Hs].
    + eapply IH; [exact Ht|exact Hs].
Qed.

Lemma scanStats_fresh (stored_length : Stored -> nat) (now : Z) (st : Store) (ks : list string) :
  (forall k v, In k ks -> st !! k = Some v -> exists it, v = SCache it /\ now <= expiration it) ->
  forall t va ex sz, exists n sz',
    scanStats stored_length now st ks (t, va, ex, sz) = Some ((t + n)%nat, (va + n)%nat, ex, sz').
Proof.
  induction ks as [|k ks IH]; simpl; intros H t va ex sz.
  - exists 0%nat, sz. rewrite !Nat.add_0_r. reflexivity.
  - assert (H' : forall k0 v, In k0 ks -> st !! k0 = Some v ->
                 exists it, v = SCache it /\ now <= expiration it)
      by (intros k0 v Hin; apply H; right; exact Hin).
    destruct (st !! k) as [v|] eqn:Hk.
    + destruct (H k v (or_introl eq_refl) Hk) as [it [-> Hle]].
      assert (Hf : (now <=? expiration it) = true) by lia. rewrite Hf.
      destruct (IH H' (S t) (S va) ex (sz + stored_length (SCache it))%nat) as [n [sz' Hs]].
      exists (S n), sz'. rewrite Hs.
      replace (t + S n)%nat with (S t + n)%nat by lia.
      replace (va + S n)%nat with (S va + n)%nat by lia. reflexivity.
    + apply IH, H'.
Qed.

Lemma cache_set_get_roundtrip_lemma (key : string) (d : Payload) (ms t now : Z) (st : Store) :
  (now <= t + ms -> get key now (set key d ms t st) = (Some d, set key d ms t st)) /\
  (t + ms < now -> get key now (set key d ms t st) = (None, remove key st)).
Proof.
  assert (Hl : set key d ms t st !! cache_key key
               = Some (SCache {| data := d; timestamp := t; expiration := t + ms |}))
    by (unfold set; apply lookup_insert_eq).
  unfold get at 1 2. rewrite Hl. simpl. split; intros H.
  - replace (now >? t + ms) with false by lia. reflexivity.
  - replace (now >? t + ms) with true by lia.
    unfold remove, set. rewrite delete_insert_eq. reflexivity.
Qed.

(** An item written by cacheService.set at time [t] with lifetime [ms] is
    served by get, with the store unchanged, up to time [t + ms]
    inclusive; after that get answers absent and leaves the store as if
    the item had never been written under that key. *)
Theorem cache_set_get_roundtrip (key : string) (d : Payload) (ms t now : Z) (st : Store) :
  (now <= t + ms -> get key now (set key d ms t st) = (Some d, set key d ms t st)) /\
  (t + ms < now -> get key now (set key d ms t st) = (None, remove key st)).
Proof. apply cache_set_get_roundtrip_lemma. Qed.

Lemma cache_set_get_roundtrip_witness :
  get "k" 1000 (set "k" (PMovers (StockService.getFallbackData "t")) 1000 0 ∅)
    = (Some (PMovers (StockService.getFallbackData "t")),
       set "k" (PMovers (StockService.getFallbackData "t")) 1000 0 ∅) /\
  get "k" 1001 (set "k" (PMovers (StockService.getFallbackData "t")) 1000 0 ∅)
    = (None, remove "k" ∅).
Proof.
  split.
  - apply (proj1 (cache_set_get_roundtrip "k" (PMovers (StockService.getFallbackData "t"))
                    1000 0 1000 ∅)). lia.
  - apply (proj2 (cache_set_get_roundtrip "k" (PMovers (StockService.getFallbackData "t"))
                    1000 0 1001 ∅)). lia.
Defined.

(** cacheService.isValid answers true exactly when get would serve the
    item at the same time: both need a cache item with
    [now <= expiration]. *)
Theorem isValid_iff_get_hit (key : string) (now : Z) (st : Store) :
  isValid key now st = match fst (get key now st) with Some _ => true | None => false end.
Proof.
  unfold isValid, get. destruct (st !! cache_key key) as [[it| |]|]; try reflexivity.
  rewrite Z.gtb_ltb. destruct (Z.leb_spec now (expiration it)), (Z.ltb_spec (expiration it) now);
    try reflexivity; lia.
Qed.

(** When no "cache_" key holds unparsable text, clearExpired deletes
    exactly the cache items with [now > expiration] under "cache_" keys;
    every other key (fresh items, the wishlists) keeps its value. *)
Theorem clearExpired_removes_exactly_expired (now : Z) (st : Store) (H : no_unparsable st)
    (k : string) :
  clearExpired now st !! k =
    if String.prefix CACHE_PREFIX k && expired_at now (st !! k) then None else st !! k.
Proof. apply clearExpired_lookup, H. Qed.

Lemma clearExpired_removes_exactly_expired_witness :
  no_unparsable store_mixed /\
  clearExpired 500 store_mixed !! cache_key "old" = None /\
  clearExpired 500 store_mixed !! cache_key "new" = Some (SCache (item_at 900)) /\
  clearExpired 500 store_mixed !! WISHLIST_KEY = Some (SWishlists [wl_tech]).
Proof.
  assert (H : no_unparsable store_mixed)
    by (apply cache_wf_no_unparsable, cache_wfb_spec; vm_compute; reflexivity).
  split; [exact H|]. split; [|split].
  - rewrite (clearExpired_removes_exactly_expired 500 store_mixed H). vm_compute. reflexivity.
  - rewrite (clearExpired_removes_exactly_expired 500 store_mixed H). vm_compute. reflexivity.
  - rewrite (clearExpired_removes_exactly_expired 500 store_mixed H). vm_compute. reflexivity.
Defined.

(** One "cache_" key holding text that JSON.parse rejects makes
    clearExpired remove nothing at all: the exception aborts the loop
    before multiRemove, expired items included. *)
Theorem clearExpired_aborts_on_unparsable (now : Z) (st : Store) (k s : string)
    (Hp : String.prefix CACHE_PREFIX k = true) (Hk : st !! k = Some (SText s))
    (Hs : s <> ""%string) :
  clearExpired now st = st.
Proof.
  unfold clearExpired.
  rewrite (scanExpired_abort now st (cacheKeysOf st) k s); [reflexivity| |exact Hk|exact Hs].
  apply cacheKeysOf_In. split; [exact Hp|]. rewrite Hk. eexists. reflexivity.
Qed.

Lemma clearExpired_aborts_on_unparsable_witness :
  clearExpired 500 store_corrupt = store_corrupt /\
  store_corrupt !! cache_key "old" = Some (SCache (item_at 100)).
Proof.
  split; [|vm_compute; reflexivity].
  apply (clearExpired_aborts_on_unparsable 500 store_corrupt (cache_key "bad") "{oops").
  - reflexivity.
  - vm_compute. reflexivity.
  - apply String.eqb_neq. reflexivity.
Defined.

(** getStats: every counted item is either valid or expired,
    [totalItems = validItems + expiredItems], also in the zero answer of
    its [catch] block. *)
Theorem getStats_total_split (stored_length : Stored -> nat) (format_kb : nat -> string)
    (now : Z) (st : Store) :
  totalItems (getStats stored_length format_kb now st) =
    (validItems (getStats stored_length format_kb now st)
     + expiredItems (getStats stored_length format_kb now st))%nat.
Proof.
  unfold getStats.
  destruct (scanStats stored_length now st (cacheKeysOf st) (0, 0, 0, 0)%nat)
    as [[[[t va] ex] sz]|] eqn:E; simpl; [|reflexivity].
  exact (scanStats_sum stored_length now st _ 0 0 0 0 _ eq_refl E).
Qed.

(** clearExpired then getStats at the same time: no expired item is
    left, every remaining cache item is valid (on a store whose "cache_"
    keys all hold cache items). *)
Theorem getStats_after_clearExpired (stored_length : Stored -> nat) (format_kb : nat -> string)
    (now : Z) (st : Store) (H : cache_wf st) :
  expiredItems (getStats stored_length format_kb now (clearExpired now st)) = 0%nat /\
  validItems (getStats stored_length format_kb now (clearExpired now st)) =
    totalItems (getStats stored_length format_kb now (clearExpired now st)).
Proof.
  assert (Hfresh : forall k v, In k (cacheKeysOf (clearExpired now st)) ->
            clearExpired now st !! k = Some v ->
            exists it, v = SCache it /\ now <= expiration it).
  { intros k v Hin Hk. apply cacheKeysOf_In in Hin as [Hp _].
    rewrite clearExpired_lookup in Hk by (apply cache_wf_no_unparsable, H).
    rewrite Hp in Hk. simpl in Hk.
    destruct (st !! k) as [v0|] eqn:Hk0; [|simpl in Hk; discriminate].
    destruct (H k v0 Hk0 Hp) as [it ->]. simpl in Hk.
    destruct (now >? expiration it) eqn:Hg; [discriminate|].
    injection Hk as <-. exists it. split; [reflexivity | lia]. }
  unfold getStats.
  destruct (scanStats_fresh stored_length now (clearExpired now st)
              (cacheKeysOf (clearExpired now st)) Hfresh 0 0 0 0) as [n [sz Hs]].
  rewrite Hs. simpl. split; reflexivity.
Qed.

Lemma getStats_after_clearExpired_witness :
  cache_wf store_mixed /\
  expiredItems (getStats (fun _ => 1%nat) (fun _ => "") 500 (clearExpired 500 store_mixed)) = 0%nat /\
  validItems (getStats (fun _ => 1%nat) (fun _ => "") 500 (clearExpired 500 store_mixed)) =
    totalItems (getStats (fun _ => 1%nat) (fun _ => "") 500 (clearExpired 500 store_mixed)).
Proof.
  assert (H : cache_wf store_mixed) by (apply cache_wfb_spec; vm_compute; reflexivity).
  split; [exact H|]. apply getStats_after_clearExpired, H.
Defined.

(** After clearAll, get misses for every key without touching the store,
    and isValid is false for every key. *)
Theorem clearAll_then_get_miss (st : Store) (key : string) (now : Z) :
  get key now (clearAll st) = (None, clearAll st) /\ isValid key now (clearAll st) = false.
Proof.
  unfold get, isValid. rewrite clearAll_lookup, cache_key_prefix. split; reflexivity.
Qed.

(* ===================================================================== *)
(* stockService: the two cached fetchers                                 *)
(* ===================================================================== *)

Lemma touches_get_eq (key : string) (st st' s : Store) (now : Z) (c : option Payload) :
  touches key st st' -> get key now st' = (c, s) -> touches key st s.
Proof.
  intros T E. replace s with (snd (get key now st')) by (rewrite E; reflexivity).
  apply touches_get, T.
Qed.

Lemma touches_frame (key : string) (st st' : Store) :
  touches key st st' -> forall k, k <> cache_key key -> st' !! k = st !! k.
Proof.
  induction 1 as [|st' now T IH|st' d ms now T IH]; intros k Hne.
  - reflexivity.
  - rewrite get_frame by exact Hne. apply IH, Hne.
  - rewrite set_frame by exact Hne. apply IH, Hne.
Qed.

Lemma touches_wf (key : string) (st st' : Store) :
  touches key st st' -> cache_wf st -> cache_wf st'.
Proof.
  induction 1 as [|st' now T IH|st' d ms now T IH]; intros H.
  - exact H.
  - apply cache_wf_get, IH, H.
  - apply cache_wf_set, IH, H.
Qed.

Lemma fetchTopGainersLosers_touches (fixed2 : string -> string) (forceRefresh : bool)
    (now : Z) (now_iso : string) (api : Promise (Api.Envelope Movers.RawMovers)) (st : Store) :
  touches StockService.TOP_GAINERS_LOSERS st
    (snd (StockService.fetchTopGainersLosers fixed2 forceRefresh now now_iso api st)) /\
  exists d, fst (StockService.fetchTopGainersLosers fixed2 forceRefresh now now_iso api st)
            = Returns d.
Proof.
  unfold StockService.fetchTopGainersLosers.
  destruct (if forceRefresh then (None, st) else get StockService.TOP_GAINERS_LOSERS now st)
    as [c0 st0] eqn:E0.
  assert (T0 : touches StockService.TOP_GAINERS_LOSERS st st0).
  { destruct forceRefresh.
    - injection E0 as _ <-. apply touches_refl.
    - eapply touches_get_eq; [apply touches_refl | exact E0]. }
  destruct c0 as [d|]; [split; [exact T0 | eexists; reflexivity]|].
  destruct api as [[resp s|err s]|e].
  - split; [apply touches_set, T0 | eexists; reflexivity].
  - destruct (get StockService.TOP_GAINERS_LOSERS now st0) as [c1 st1] eqn:E1.
    pose proof (touches_get_eq _ _ _ _ _ _ T0 E1) as T1.
    destruct c1; (split; [exact T1 | eexists; reflexivity]).
  - destruct (get StockService.TOP_GAINERS_LOSERS now st0) as [c1 st1] eqn:E1.
    pose proof (touches_get_eq _ _ _ _ _ _ T0 E1) as T1.
    destruct c1; (split; [exact T1 | eexists; reflexivity]).
Qed.

Lemma fetchCompanyOverview_touches (symbol : string) (forceRefresh : bool) (now : Z)
    (api : Promise (Api.Envelope (list (string * string)))) (st : Store) :
  touches (StockService.COMPANY_OVERVIEW ++ symbol) st
    (snd (StockService.fetchCompanyOverview symbol forceRefresh now api st)).
Proof.
  unfold StockService.fetchCompanyOverview. cbv beta zeta.
  set (key := (StockService.COMPANY_OVERVIEW ++ symbol)%string).
  destruct (if forceRefresh then (None, st) else get key now st) as [c0 st0] eqn:E0.
  assert (T0 : touches key st st0).
  { destruct forceRefresh.
    - injection E0 as _ <-. apply touches_refl.
    - eapply touches_get_eq; [apply touches_refl | exact E0]. }
  destruct c0 as [d|]; [exact T0|].
  destruct api as [[resp s|err s]|e].
  - apply touches_set, T0.
  - destruct (get key now st0) as [c1 st1] eqn:E1.
    pose proof (touches_get_eq _ _ _ _ _ _ T0 E1) as T1.
    destruct c1; [exact T1|].
    destruct (get key now st1) as [c2 st2] eqn:E2.
    pose proof (touches_get_eq _ _ _ _ _ _ T1 E2) as T2.
    destruct c2; exact T2.
  - destruct (get key now st0) as [c2 st2] eqn:E2.
    pose proof (touches_get_eq _ _ _ _ _ _ T0 E2) as T2.
    destruct c2; exact T2.
Qed.

(** A fresh cache item (not past its expiration) is served by both
    fetchers without looking at the request and without changing the
    store, unless a refresh is forced. *)
Theorem fresh_cache_served_without_request (fixed2 : string -> string) (symbol : string)
    (now : Z) (now_iso : string) (api : Promise (Api.Envelope Movers.RawMovers))
    (api' : Promise (Api.Envelope (list (string * string)))) (st : Store) (it : CacheItem)
    (Hle : now <= expiration it) :
  (st !! cache_key StockService.TOP_GAINERS_LOSERS = Some (SCache it) ->
     StockService.fetchTopGainersLosers fixed2 false now now_iso api st = (Returns (data it), st)) /\
  (st !! cache_key (StockService.COMPANY_OVERVIEW ++ symbol) = Some (SCache it) ->
     StockService.fetchCompanyOverview symbol false now api' st = (Returns (data it), st)).
Proof.
  assert (Hg : forall key, st !! cache_key key = Some (SCache it) ->
                           get key now st = (Some (data it), st)).
  { intros key Hk. unfold get. rewrite Hk. replace (now >? expiration it) with false by lia.
    reflexivity. }
  split; intros Hk.
  - unfold StockService.fetchTopGainersLosers. rewrite (Hg _ Hk). reflexivity.
  - unfold StockService.fetchCompanyOverview. cbv beta zeta. rewrite (Hg _ Hk). reflexivity.
Qed.

Lemma fresh_cache_served_without_request_witness :
  StockService.fetchTopGainersLosers (fun s => s) false 500 "now" (Rejected (Error "offline"))
    ({[ cache_key StockService.TOP_GAINERS_LOSERS := SCache (item_at 900) ]})
  = (Returns (data (item_at 900)), {[ cache_key StockService.TOP_GAINERS_LOSERS := SCache (item_at 900) ]}).
Proof.
  apply (proj1 (fresh_cache_served_without_request (fun s => s) "IBM" 500 "now"
           (Rejected (Error "offline")) (Rejected (Error "offline"))
           {[ cache_key StockService.TOP_GAINERS_LOSERS := SCache (item_at 900) ]} (item_at 900)
           ltac:(vm_compute; discriminate))).
  vm_compute. reflexivity.
Defined.

(** After a successful forced fetch of the movers at time [now], a
    non-forced fetch at any time up to [now + STOCK_DATA] answers the same
    formatted data from the cache, whatever the request would give, and
    leaves the store unchanged. *)
Theorem movers_refetch_within_ttl (fixed2 : string -> string) (now now' : Z)
    (now_iso now_iso' : string) (resp : Api.ApiBody Movers.RawMovers) (status : Z)
    (api' : Promise (Api.Envelope Movers.RawMovers)) (st : Store)
    (Hwin : now' <= now + StockService.STOCK_DATA) :
  let first := StockService.fetchTopGainersLosers fixed2 true now now_iso
                 (Resolved (Api.EnvOk resp status)) st in
  fst first = Returns (PMovers (StockService.formatStockData fixed2 (Api.body resp))) /\
  StockService.fetchTopGainersLosers fixed2 false now' now_iso' api' (snd first)
    = (Returns (PMovers (StockService.formatStockData fixed2 (Api.body resp))), snd first).
Proof.
  intros first.
  set (fd := PMovers (StockService.formatStockData fixed2 (Api.body resp))).
  assert (E1 : first = (Returns fd, set StockService.TOP_GAINERS_LOSERS fd StockService.STOCK_DATA now st))
    by reflexivity.
  rewrite E1. cbn [fst snd]. split; [reflexivity|].
  assert (Hg : get StockService.TOP_GAINERS_LOSERS now'
                 (set StockService.TOP_GAINERS_LOSERS fd StockService.STOCK_DATA now st)
               = (Some fd, set StockService.TOP_GAINERS_LOSERS fd StockService.STOCK_DATA now st)).
  { apply (proj1 (cache_set_get_roundtrip_lemma _ _ _ _ _ _)). exact Hwin. }
  unfold StockService.fetchTopGainersLosers at 1. rewrite Hg. reflexivity.
Qed.

Lemma movers_refetch_within_ttl_witness :
  let resp := Api.mkApiBody None None (Movers.mkRawMovers "Top gainers" "2024-01-02" None None None) in
  let first := StockService.fetchTopGainersLosers (fun s => s) true 0 "t0"
                 (Resolved (Api.EnvOk resp 200)) ∅ in
  fst first = Returns (PMovers (StockService.formatStockData (fun s => s) (Api.body resp))) /\
  StockService.fetchTopGainersLosers (fun s => s) false 300000 "t1" (Rejected (Error "offline"))
    (snd first)
    = (Returns (PMovers (StockService.formatStockData (fun s => s) (Api.body resp))), snd first).
Proof.
  intros resp.
  apply (movers_refetch_within_ttl (fun s => s) 0 300000 "t0" "t1" resp 200
           (Rejected (Error "offline")) ∅).
  vm_compute. discriminate.
Defined.

(** The two fetchers never touch a storage key other than their own
    cache key (the wishlists and the other cache items are left as they
    were), and fetchTopGainersLosers never rejects: it resolves with
    data from the request, the cache or the fallback dataset. *)
Theorem fetchers_touch_only_own_key (fixed2 : string -> string) (forceRefresh : bool)
    (now : Z) (now_iso symbol : string) (api : Promise (Api.Envelope Movers.RawMovers))
    (api' : Promise (Api.Envelope (list (string * string)))) (st : Store) (k : string) :
  (exists d, fst (StockService.fetchTopGainersLosers fixed2 forceRefresh now now_iso api st)
             = Returns d) /\
  (k <> cache_key StockService.TOP_GAINERS_LOSERS ->
     snd (StockService.fetchTopGainersLosers fixed2 forceRefresh now now_iso api st) !! k
     = st !! k) /\
  (k <> cache_key (StockService.COMPANY_OVERVIEW ++ symbol) ->
     snd (StockService.fetchCompanyOverview symbol forceRefresh now api' st) !! k = st !! k).
Proof.
  destruct (fetchTopGainersLosers_touches fixed2 forceRefresh now now_iso api st) as [T Hd].
  split; [exact Hd | split].
  - intros Hne. exact (touches_frame _ _ _ T k Hne).
  - intros Hne. exact (touches_frame _ _ _ (fetchCompanyOverview_touches symbol forceRefresh now api' st) k Hne).
Qed.

Lemma fetchers_touch_only_own_key_witness :
  snd (StockService.fetchTopGainersLosers (fun s => s) true 500 "now" (Rejected (Error "offline"))
         store_mixed) !! WISHLIST_KEY = store_mixed !! WISHLIST_KEY /\
  snd (StockService.fetchCompanyOverview "IBM" true 500 (Rejected (Error "offline"))
         store_mixed) !! WISHLIST_KEY = store_mixed !! WISHLIST_KEY.
Proof.
  split.
  - apply (proj1 (proj2 (fetchers_touch_only_own_key (fun s => s) true 500 "now" "IBM"
             (Rejected (Error "offline")) (Rejected (Error "offline")) store_mixed WISHLIST_KEY))).
    apply String.eqb_neq. reflexivity.
  - apply (proj2 (proj2 (fetchers_touch_only_own_key (fun s => s) true 500 "now" "IBM"
             (Rejected (Error "offline")) (Rejected (Error "offline")) store_mixed WISHLIST_KEY))).
    apply String.eqb_neq. reflexivity.
Defined.

(** fetchCompanyOverview with no cache item for the symbol and a failing
    request rejects, forced refresh or not, and leaves the store
    unchanged: with the request's error message ("Failed to fetch company
    data" when it is empty) for a failure envelope, with the request's own
    error when the request rejects. *)
Theorem overview_failure_without_cache_raises (symbol : string) (forceRefresh : bool) (now : Z)
    (err : string) (status : Z) (e : JsError) (st : Store)
    (Hnone : st !! cache_key (StockService.COMPANY_OVERVIEW ++ symbol) = None) :
  StockService.fetchCompanyOverview symbol forceRefresh now (Resolved (Api.EnvErr err status)) st
    = (Raises (Error (if String.eqb err "" then "Failed to fetch company data" else err)), st) /\
  StockService.fetchCompanyOverview symbol forceRefresh now (Rejected e) st = (Raises e, st).
Proof.
  unfold StockService.fetchCompanyOverview. cbv beta zeta.
  set (key := (StockService.COMPANY_OVERVIEW ++ symbol)%string) in *.
  pose proof (get_miss key now st Hnone) as Hg. clearbody key.
  destruct forceRefresh; split; repeat (rewrite Hg; cbn beta iota); reflexivity.
Qed.

Lemma overview_failure_without_cache_raises_witness :
  StockService.fetchCompanyOverview "IBM" false 500 (Resolved (Api.EnvErr "" 500)) store_mixed
    = (Raises (Error "Failed to fetch company data"), store_mixed) /\
  StockService.fetchCompanyOverview "IBM" false 500 (Rejected (Error Api.TIMEOUT_MESSAGE)) store_mixed
    = (Raises (Error Api.TIMEOUT_MESSAGE), store_mixed).
Proof.
  apply (overview_failure_without_cache_raises "IBM" false 500 "" 500 (Error Api.TIMEOUT_MESSAGE)
           store_mixed).
  vm_compute. reflexivity.
Defined.

(* ===================================================================== *)
(* stockService.formatChartData                                          *)
(* ===================================================================== *)

Lemma ascii_compare_lt_trans (a b c : ascii) :
  Ascii.compare a b = Lt -> Ascii.compare b c = Lt -> Ascii.compare a c = Lt.
Proof. unfold Ascii.compare. rewrite !N.compare_lt_iff. lia. Qed.

Lemma ascii_compare_refl (a : ascii) : Ascii.compare a a = Eq.
Proof. unfold Ascii.compare. apply N.compare_refl. Qed.

Lemma str_lt_trans (a b c : string) : str_lt a b -> str_lt b c -> str_lt a c.
Proof.
  unfold str_lt. revert b c.
  induction a as [|x a IH]; intros [|y b] [|z c]; simpl; intros H1 H2;
    try discriminate; try reflexivity.
  destruct (Ascii.compare x y) eqn:Exy; try discriminate;
    destruct (Ascii.compare y z) eqn:Eyz; try discriminate.
  - apply Ascii.compare_eq_iff in Exy, Eyz. subst y z.
    rewrite ascii_compare_refl. apply (IH b c H1 H2).
  - apply Ascii.compare_eq_iff in Exy. subst y. rewrite Eyz. reflexivity.
  - apply Ascii.compare_eq_iff in Eyz. subst z. rewrite Exy. reflexivity.
  - rewrite (ascii_compare_lt_trans x y z Exy Eyz). reflexivity.
Qed.

Lemma str_le_lt (a b : string) : String.leb a b = true -> a <> b -> str_lt a b.
Proof.
  unfold String.leb, str_lt. intros H Hne.
  destruct (String.compare a b) eqn:E; [|reflexivity|discriminate].
  apply String.compare_eq_iff in E. contradiction.
Qed.

Lemma insert_key_perm (k : string) (l : list string) :
  Permutation (StockService.insert_key k l) (k :: l).
Proof.
  induction l as [|x l IH]; simpl; [reflexivity|].
  destruct (String.leb k x); [reflexivity|].
  eapply perm_trans; [apply perm_skip, IH | apply perm_swap].
Qed.

Lemma sort_keys_perm (l : list string) : Permutation (StockService.sort_keys l) l.
Proof.
  induction l as [|k l IH]; simpl; [constructor|].
  eapply perm_trans; [apply insert_key_perm | apply perm_skip, IH].
Qed.

Lemma insert_key_sorted (k : string) (l : list string) :
  Sorted (fun a b => String.leb a b = true) l ->
  Sorted (fun a b => String.leb a b = true) (StockService.insert_key k l).
Proof.
  induction l as [|x l IH]; simpl; intros H; [repeat constructor|].
  destruct (String.leb k x) eqn:Hkx.
  - constructor; [exact H | constructor; exact Hkx].
  - apply Sorted_inv in H as [Hl Hhd].
    assert (Hxk : String.leb x k = true)
      by (destruct (String.leb_total k x); [congruence | assumption]).
    constructor; [apply IH, Hl|].
    destruct l as [|y l']; simpl; [constructor; exact Hxk|].
    destruct (String.leb k y); constructor; [exact Hxk|].
    inversion Hhd; assumption.
Qed.

Lemma sort_keys_sorted (l : list string) :
  Sorted (fun a b => String.leb a b = true) (StockService.sort_keys l).
Proof. induction l as [|k l IH]; simpl; [constructor | apply insert_key_sorted, IH]. Qed.

Lemma Sorted_le_NoDup_lt (l : list string) :
  Sorted (fun a b => String.leb a b = true) l -> List.NoDup l -> Sorted str_lt l.
Proof.
  induction 1 as [|a l Hs IH Hhd]; intros Hnd; constructor.
  - apply IH. inversion Hnd; assumption.
  - destruct Hhd as [|b l' Hab]; constructor. apply str_le_lt; [exact Hab|].
    intros ->. inversion Hnd as [|? ? Hnin]. apply Hnin. left. reflexivity.
Qed.

Lemma sort_keys_strict (l : list string) :
  List.NoDup l -> StronglySorted str_lt (StockService.sort_keys l).
Proof.
  intros Hnd. apply Sorted_StronglySorted; [exact str_lt_trans|].
  apply Sorted_le_NoDup_lt; [apply sort_keys_sorted|].
  apply (Permutation_NoDup (Permutation_sym (sort_keys_perm l))), Hnd.
Qed.

Lemma StronglySorted_map {A B} (f : A -> B) (R : B -> B -> Prop) (l : list A) :
  StronglySorted R (map f l) -> StronglySorted (fun x y => R (f x) (f y)) l.
Proof.
  induction l as [|x l IH]; simpl; intros H; constructor;
    apply StronglySorted_inv in H as [H1 H2]; [apply IH, H1|].
  rewrite List.Forall_forall in *. intros y Hy. apply H2, in_map, Hy.
Qed.

Lemma list_map_fmap {A B} (f : A -> B) (l : list A) : map f l = f <$> l.
Proof. induction l as [|x l IH]; simpl; [reflexivity | rewrite IH; reflexivity]. Qed.

Lemma keys_In {A} (m : gmap string A) (k : string) :
  In k (map fst (map_to_list m)) <-> is_Some (m !! k).
Proof.
  rewrite in_map_iff. split.
  - intros [[k' v] [Heq Hin]]. simpl in Heq. subst k'.
    exists v. apply elem_of_map_to_list. apply list_elem_of_In. exact Hin.
  - intros [v Hv]. exists (k, v). split; [reflexivity|].
    apply list_elem_of_In. apply elem_of_map_to_list. exact Hv.
Qed.

Lemma omap_cons' {A B} (f : A -> option B) (x : A) (l : list A) :
  omap f (x :: l) = match f x with Some y => y :: omap f l | None => omap f l end.
Proof. reflexivity. Qed.

Section ChartFacts.
Variables (parseFloat parseInt : string -> string).

Lemma chart_point_Some (ts : gmap string StockService.Ohlcv) (d : string) (p : StockService.ChartPoint) :
  StockService.chart_point parseFloat parseInt ts d = Some p ->
  StockService.date p = d /\
  exists o, ts !! d = Some o /\
    StockService.cp_price p = parseFloat (StockService.o_close o) /\
    StockService.cp_volume p = parseInt (StockService.o_volume o) /\
    StockService.high p = parseFloat (StockService.o_high o) /\
    StockService.low p = parseFloat (StockService.o_low o) /\
    StockService.open_ p = parseFloat (StockService.o_open o).
Proof.
  unfold StockService.chart_point. destruct (ts !! d) as [o|] eqn:Ho; [|discriminate].
  intros H. injection H as <-. split; [reflexivity|]. exists o. repeat split.
Qed.

Lemma chart_omap_dates (ts : gmap string StockService.Ohlcv) (l : list string) :
  (forall d, In d l -> is_Some (ts !! d)) ->
  map StockService.date (omap (StockService.chart_point parseFloat parseInt ts) l) = l.
Proof.
  induction l as [|d l IH]; intros H; [reflexivity|].
  rewrite omap_cons'. destruct (H d (or_introl eq_refl)) as [o Ho].
  unfold StockService.chart_point at 1. rewrite Ho. simpl. f_equal.
  apply IH. intros d' Hd'. apply H. right. exact Hd'.
Qed.

Lemma chart_omap_in (ts : gmap string StockService.Ohlcv) (l : list string) (p : StockService.ChartPoint) :
  In p (omap (StockService.chart_point parseFloat parseInt ts) l) ->
  exists d, In d l /\ StockService.chart_point parseFloat parseInt ts d = Some p.
Proof.
  induction l as [|d l IH]; [simpl; contradiction|].
  rewrite omap_cons'. destruct (StockService.chart_point parseFloat parseInt ts d) as [q|] eqn:Hq.
  - intros [<-|Hin]; [exists d; split; [left; reflexivity | exact Hq]|].
    destruct (IH Hin) as [d' [Hd' Hp]]. exists d'. split; [right; exact Hd' | exact Hp].
  - intros Hin. destruct (IH Hin) as [d' [Hd' Hp]]. exists d'. split; [right; exact Hd' | exact Hp].
Qed.

End ChartFacts.

Lemma filterDataByPeriod_in (parse_date : string -> option Z) (now : Z)
    (data : list StockService.ChartPoint) (period : string) (p : StockService.ChartPoint) :
  In p (StockService.filterDataByPeriod parse_date now data period) <->
  In p data /\ period_keeps parse_date now period (StockService.date p).
Proof.
  unfold StockService.filterDataByPeriod, period_keeps.
  destruct (StockService.periodDuration period) as [dur|]; [|tauto].
  rewrite filter_In. split.
  - intros [Hin Hp]. split; [exact Hin|].
    destruct (parse_date (StockService.date p)) as [t|]; [|discriminate].
    exists t. split; [reflexivity | lia].
  - intros [Hin [t [Ht Hle]]]. split; [exact Hin|]. rewrite Ht. lia.
Qed.

Lemma filterDataByPeriod_sorted (parse_date : string -> option Z) (now : Z)
    (data : list StockService.ChartPoint) (period : string) (R : _ -> _ -> Prop) :
  StronglySorted R data -> StronglySorted R (StockService.filterDataByPeriod parse_date now data period).
Proof.
  unfold StockService.filterDataByPeriod.
  destruct (StockService.periodDuration period); [apply filter_StronglySorted | exact id].
Qed.

(** formatChartData takes the daily series, else the weekly one, else the
    monthly one, and rejects with 'Failed to format chart data' when none
    is present. Otherwise its points have strictly ascending dates (so no
    date twice), each point is built from the series entry at its date
    (price from '4. close', volume from '5. volume', high, low, open) and
    passes the period filter, every date of the series that passes the
    filter has its point, and [dataPoints] is the number of points. *)
Theorem formatChartData_points (parseFloat parseInt : string -> string)
    (parse_date : string -> option Z) (now : Z) (now_iso : string)
    (apiData : StockService.ChartApiData) (period : string) :
  match (match StockService.daily apiData with
         | Some ts => Some ts
         | None => match StockService.weekly apiData with
                   | Some ts => Some ts
                   | None => StockService.monthly apiData
                   end
         end) with
  | None =>
      StockService.formatChartData parseFloat parseInt parse_date now now_iso apiData period
      = Raises (Error "Failed to format chart data")
  | Some ts =>
      exists cd,
      StockService.formatChartData parseFloat parseInt parse_date now now_iso apiData period
        = Returns cd /\
      StockService.c_dataPoints cd = length (StockService.c_rawData cd) /\
      StronglySorted (fun p q => str_lt (StockService.date p) (StockService.date q))
        (StockService.c_rawData cd) /\
      (forall p, In p (StockService.c_rawData cd) ->
         period_keeps parse_date now period (StockService.date p) /\
         exists o, ts !! StockService.date p = Some o /\
           StockService.cp_price p = parseFloat (StockService.o_close o) /\
           StockService.cp_volume p = parseInt (StockService.o_volume o) /\
           StockService.high p = parseFloat (StockService.o_high o) /\
           StockService.low p = parseFloat (StockService.o_low o) /\
           StockService.open_ p = parseFloat (StockService.o_open o)) /\
      (forall d, is_Some (ts !! d) -> period_keeps parse_date now period d ->
         In d (map StockService.date (StockService.c_rawData cd)))
  end.
Proof.
  unfold StockService.formatChartData. cbv zeta.
  destruct (match StockService.daily apiData with
            | Some ts => Some ts
            | None => match StockService.weekly apiData with
                      | Some ts => Some ts
                      | None => StockService.monthly apiData
                      end
            end) as [ts|]; [|reflexivity].
  set (dates := StockService.sort_keys (map fst (map_to_list ts))).
  set (raw := omap (StockService.chart_point parseFloat parseInt ts) dates).
  set (filtered := StockService.filterDataByPeriod parse_date now raw period).
  eexists. split; [reflexivity|]. cbn [StockService.c_dataPoints StockService.c_rawData].
  assert (Hkeys : forall d, In d dates <-> is_Some (ts !! d)).
  { intros d. rewrite <- keys_In. split; apply Permutation_in;
      [apply sort_keys_perm | apply Permutation_sym, sort_keys_perm]. }
  assert (Hnd : List.NoDup (map fst (map_to_list ts)))
    by (rewrite list_map_fmap; apply NoDup_ListNoDup, NoDup_fst_map_to_list).
  assert (Hdates : map StockService.date raw = dates).
  { apply chart_omap_dates. intros d. apply Hkeys. }
  assert (Hraw_sorted : StronglySorted (fun p q => str_lt (StockService.date p) (StockService.date q)) raw).
  { apply StronglySorted_map. rewrite Hdates. apply sort_keys_strict, Hnd. }
  split; [reflexivity|]. split; [|split].
  - apply filterDataByPeriod_sorted, Hraw_sorted.
  - intros p Hp. apply filterDataByPeriod_in in Hp as [Hp Hk]. split; [exact Hk|].
    destruct (chart_omap_in parseFloat parseInt ts dates p Hp) as [d [_ Hd]].
    destruct (chart_point_Some parseFloat parseInt ts d p Hd) as [Hdate Ho].
    rewrite Hdate. exact Ho.
  - intros d Hd Hk. apply Hkeys in Hd. rewrite <- Hdates in Hd.
    apply in_map_iff in Hd as [p [Hpd Hp]]. apply in_map_iff. exists p. split; [exact Hpd|].
    apply filterDataByPeriod_in. split; [exact Hp|]. rewrite Hpd. exact Hk.
Qed.

(* ===================================================================== *)
(* wishlistService: create, delete, add, remove, lookups                 *)
(* ===================================================================== *)

Lemma findIndex_app_fresh {A} (p : A -> bool) (l : list A) (y : A) :
  (forall x, In x l -> p x = false) -> p y = true ->
  WishlistService.findIndex p (l ++ [y]) = Some (length l).
Proof.
  induction l as [|x l IH]; simpl; intros Hl Hy; [rewrite Hy; reflexivity|].
  rewrite (Hl x (or_introl eq_refl)), IH; [reflexivity| |exact Hy].
  intros x' Hx'. apply Hl. right. exact Hx'.
Qed.

Lemma findIndex_insert {A} (p : A -> bool) (l : list A) (i : nat) (x y : A) :
  l !! i = Some y -> p x = p y ->
  WishlistService.findIndex p (<[i:=x]> l) = WishlistService.findIndex p l.
Proof.
  revert i. induction l as [|z l IH]; intros [|i] Hl Hp; try discriminate; simpl in *.
  - injection Hl as ->. rewrite Hp. reflexivity.
  - rewrite (IH i Hl Hp). reflexivity.
Qed.

Lemma map_insert_same {A B} (f : A -> B) (l : list A) (i : nat) (x y : A) :
  l !! i = Some y -> f x = f y -> map f (<[i:=x]> l) = map f l.
Proof.
  revert i. induction l as [|z l IH]; intros [|i] Hl Hf; try discriminate; simpl in *.
  - injection Hl as ->. rewrite Hf. reflexivity.
  - rewrite (IH i Hl Hf). reflexivity.
Qed.

Lemma filter_all_true {A} (f : A -> bool) (l : list A) :
  (forall x, In x l -> f x = true) -> List.filter f l = l.
Proof.
  induction l as [|x l IH]; simpl; intros H; [reflexivity|].
  rewrite (H x (or_introl eq_refl)), IH; [reflexivity|].
  intros y Hy. apply H. right. exact Hy.
Qed.

(** What a successful addStockToWishlist did: the wishlist found at
    index [i] has the new stock appended and the updated timestamp. *)
Lemma addStock_success_shape (wid : string) (stock : Wl.StockInput) (now_iso : string)
    (st st' : Store) :
  WishlistService.addStockToWishlist wid stock now_iso st = (Returns true, st') ->
  exists i w,
    WishlistService.findIndex (fun w => String.eqb (Wl.id w) wid) (WishlistService.getWishlists st)
      = Some i /\
    WishlistService.getWishlists st !! i = Some w /\
    existsb (fun s => WishlistService.opt_str_eqb (Wl.symbol s) (Wl.in_symbol stock)) (Wl.stocks w)
      = false /\
    st' = <[WISHLIST_KEY := SWishlists (<[i := {|
            Wl.id := Wl.id w; Wl.wl_name := Wl.wl_name w;
            Wl.stocks := Wl.stocks w ++ [{|
              Wl.symbol := or_str (Wl.in_symbol stock) (Wl.in_ticker stock);
              Wl.name := Wl.in_name stock; Wl.price := Wl.in_price stock;
              Wl.change := Wl.in_change stock; Wl.addedAt := now_iso |}];
            Wl.createdAt := Wl.createdAt w; Wl.updatedAt := now_iso |}]>
            (WishlistService.getWishlists st))]> st.
Proof.
  unfold WishlistService.addStockToWishlist. cbv zeta.
  destruct (WishlistService.findIndex _ (WishlistService.getWishlists st)) as [i|] eqn:Hi;
    [|discriminate].
  destruct (WishlistService.getWishlists st !! i) as [w|] eqn:Hw; [|discriminate].
  destruct (existsb _ (Wl.stocks w)) eqn:Hex; [discriminate|].
  intros H. injection H as Hs. exists i, w. repeat split; auto.
Qed.

Lemma addStock_store (wid : string) (stock : Wl.StockInput) (now_iso : string) (st : Store) :
  snd (WishlistService.addStockToWishlist wid stock now_iso st) = st \/
  exists ws, snd (WishlistService.addStockToWishlist wid stock now_iso st)
             = <[WISHLIST_KEY := SWishlists ws]> st.
Proof.
  unfold WishlistService.addStockToWishlist. cbv zeta.
  destruct (WishlistService.findIndex _ _); [|left; reflexivity].
  destruct (_ !! _); [|left; reflexivity].
  destruct (existsb _ _); [left; reflexivity | right; eexists; reflexivity].
Qed.

Lemma removeStock_store (wid sym : string) (now_iso : string) (st : Store) :
  snd (WishlistService.removeStockFromWishlist wid sym now_iso st) = st \/
  exists ws, snd (WishlistService.removeStockFromWishlist wid sym now_iso st)
             = <[WISHLIST_KEY := SWishlists ws]> st.
Proof.
  unfold WishlistService.removeStockFromWishlist. cbv zeta.
  destruct (WishlistService.findIndex _ _); [|left; reflexivity].
  destruct (_ !! _); [right; eexists; reflexivity | left; reflexivity].
Qed.

Lemma wishlist_store_frame (st st' : Store) (k : string) :
  (st' = st \/ exists ws, st' = <[WISHLIST_KEY := SWishlists ws]> st) ->
  k <> WISHLIST_KEY -> st' !! k = st !! k.
Proof.
  intros [->|[ws ->]] Hne; [reflexivity|]. apply lookup_insert_ne. congruence.
Qed.

(** A new wishlist gets id [Date.now().toString()], the trimmed name
    ([name.trim()], whatever that trim does) and
    no stocks, and is appended to the list; when no wishlist has that id
    yet, adding a stock to the id just returned succeeds and appends the
    stock to it and nothing else. *)
Theorem create_then_add_stock (js_trim : string -> string) (name : string) (now : Z) (now_iso now_iso' : string)
    (stock : Wl.StockInput) (st : Store)
    (Hfresh : ~ In (Z_to_dec now) (map Wl.id (WishlistService.getWishlists st))) :
  fst (WishlistService.createWishlist js_trim name now now_iso st)
    = Returns {| Wl.id := Z_to_dec now; Wl.wl_name := js_trim name; Wl.stocks := [];
                 Wl.createdAt := now_iso; Wl.updatedAt := now_iso |} /\
  WishlistService.addStockToWishlist (Z_to_dec now) stock now_iso'
    (snd (WishlistService.createWishlist js_trim name now now_iso st))
  = (Returns true,
     <[WISHLIST_KEY := SWishlists (WishlistService.getWishlists st ++
        [{| Wl.id := Z_to_dec now; Wl.wl_name := js_trim name;
            Wl.stocks := [{| Wl.symbol := or_str (Wl.in_symbol stock) (Wl.in_ticker stock);
                             Wl.name := Wl.in_name stock; Wl.price := Wl.in_price stock;
                             Wl.change := Wl.in_change stock; Wl.addedAt := now_iso' |}];
            Wl.createdAt := now_iso; Wl.updatedAt := now_iso' |}])]> st).
Proof.
  split; [reflexivity|].
  set (ws := WishlistService.getWishlists st) in *.
  change (snd (WishlistService.createWishlist js_trim name now now_iso st)) with
    (<[WISHLIST_KEY := SWishlists (ws ++ [{| Wl.id := Z_to_dec now; Wl.wl_name := js_trim name;
        Wl.stocks := []; Wl.createdAt := now_iso; Wl.updatedAt := now_iso |}])]> st).
  unfold WishlistService.addStockToWishlist. cbv zeta. rewrite getWishlists_insert.
  rewrite findIndex_app_fresh; [| |apply String.eqb_refl].
  2:{ intros x Hx. apply String.eqb_neq. intros He. apply Hfresh. rewrite <- He. apply in_map, Hx. }
  rewrite (list_lookup_middle ws [] _ (length ws) eq_refl).
  cbn [Wl.stocks existsb].
  rewrite insert_insert_eq, (insert_app_r_alt ws) by lia. rewrite Nat.sub_diag. reflexivity.
Qed.

Lemma create_then_add_stock_witness :
  WishlistService.addStockToWishlist "1760000500000" input_msft "t1"
    (snd (WishlistService.createWishlist (fun s => s) "Growth" 1760000500000 "t0" store_tech))
  = (Returns true,
     <[WISHLIST_KEY := SWishlists (WishlistService.getWishlists store_tech ++
        [{| Wl.id := "1760000500000"; Wl.wl_name := "Growth";
            Wl.stocks := [{| Wl.symbol := Some "MSFT"; Wl.name := Some "Microsoft Corp.";
                             Wl.price := Some "$367.12"; Wl.change := Some "+0.92%";
                             Wl.addedAt := "t1" |}];
            Wl.createdAt := "t0"; Wl.updatedAt := "t1" |}])]> store_tech).
Proof.
  apply (proj2 (create_then_add_stock (fun s => s) "Growth" 1760000500000 "t0" "t1" input_msft store_tech
                  ltac:(vm_compute; intros [H|[]]; discriminate H))).
Defined.

(** Two wishlists created in the same millisecond get the same id; a
    delete of that id then removes both. *)
Theorem create_same_millisecond_duplicate_ids (js_trim : string -> string) (n1 n2 i1 i2 : string) (now : Z) (st : Store) :
  (exists w1 w2,
     WishlistService.getWishlists
       (snd (WishlistService.createWishlist js_trim n2 now i2 (snd (WishlistService.createWishlist js_trim n1 now i1 st))))
     = WishlistService.getWishlists st ++ [w1; w2] /\ Wl.id w1 = Wl.id w2) /\
  WishlistService.getWishlists
    (snd (WishlistService.deleteWishlist (Z_to_dec now)
       (snd (WishlistService.createWishlist js_trim n2 now i2 (snd (WishlistService.createWishlist js_trim n1 now i1 st))))))
  = List.filter (fun w => negb (String.eqb (Wl.id w) (Z_to_dec now))) (WishlistService.getWishlists st).
Proof.
  assert (E : WishlistService.getWishlists
       (snd (WishlistService.createWishlist js_trim n2 now i2 (snd (WishlistService.createWishlist js_trim n1 now i1 st))))
     = WishlistService.getWishlists st ++
       [{| Wl.id := Z_to_dec now; Wl.wl_name := js_trim n1; Wl.stocks := [];
           Wl.createdAt := i1; Wl.updatedAt := i1 |};
        {| Wl.id := Z_to_dec now; Wl.wl_name := js_trim n2; Wl.stocks := [];
           Wl.createdAt := i2; Wl.updatedAt := i2 |}]).
  { unfold WishlistService.createWishlist. cbv zeta. cbn [snd].
    rewrite !getWishlists_insert, <- app_assoc. reflexivity. }
  split; [eexists _, _; split; [exact E | reflexivity]|].
  unfold WishlistService.deleteWishlist at 1. cbv zeta. cbn [snd].
  rewrite getWishlists_insert, E, List.filter_app. cbn. rewrite String.eqb_refl. cbn.
  rewrite app_nil_r. reflexivity.
Qed.

(** deleteWishlist keeps exactly the wishlists with another id, in their
    order (the stored list is the old one filtered); afterwards no stock
    lookup reports the deleted id; for an unknown id it still answers true
    and leaves the list as it was. *)
Theorem deleteWishlist_removes_only_id (wid : string) (st : Store) :
  WishlistService.getWishlists (snd (WishlistService.deleteWishlist wid st))
    = List.filter (fun w => negb (String.eqb (Wl.id w) wid)) (WishlistService.getWishlists st) /\
  (forall w, In w (WishlistService.getWishlists (snd (WishlistService.deleteWishlist wid st))) <->
             In w (WishlistService.getWishlists st) /\ Wl.id w <> wid) /\
  (forall sym, ~ In wid (WishlistService.getWishlistsContainingStock sym
                           (snd (WishlistService.deleteWishlist wid st)))) /\
  (~ In wid (map Wl.id (WishlistService.getWishlists st)) ->
     WishlistService.deleteWishlist wid st
     = (Returns true, <[WISHLIST_KEY := SWishlists (WishlistService.getWishlists st)]> st)).
Proof.
  assert (Hin : forall w, In w (WishlistService.getWishlists (snd (WishlistService.deleteWishlist wid st))) <->
             In w (WishlistService.getWishlists st) /\ Wl.id w <> wid).
  { intros w. unfold WishlistService.deleteWishlist. cbn [snd]. rewrite getWishlists_insert.
    rewrite filter_In, negb_true_iff, String.eqb_neq. reflexivity. }
  split; [unfold WishlistService.deleteWishlist; cbn [snd]; apply getWishlists_insert|].
  split; [exact Hin | split].
  - intros sym Hc. unfold WishlistService.getWishlistsContainingStock in Hc.
    apply in_map_iff in Hc as [w [Hid Hw]]. apply filter_In in Hw as [Hw _].
    apply Hin in Hw as [_ Hne]. contradiction.
  - intros Hnot. unfold WishlistService.deleteWishlist. cbv zeta. f_equal. f_equal. f_equal.
    apply filter_all_true. intros w Hw. apply negb_true_iff, String.eqb_neq.
    intros He. apply Hnot. rewrite <- He. apply in_map, Hw.
Qed.

(** After a successful addStockToWishlist, getWishlistsContainingStock for
    the stored symbol ([stock.symbol || stock.ticker]) lists the wishlist. *)
Theorem addStock_success_listed (wid : string) (stock : Wl.StockInput) (now_iso : string)
    (st st' : Store) (sym : string)
    (Hadd : WishlistService.addStockToWishlist wid stock now_iso st = (Returns true, st'))
    (Hsym : or_str (Wl.in_symbol stock) (Wl.in_ticker stock) = Some sym) :
  In wid (WishlistService.getWishlistsContainingStock sym st').
Proof.
  destruct (addStock_success_shape wid stock now_iso st st' Hadd) as [i [w [Hi [Hw [_ ->]]]]].
  destruct (findIndex_Some _ _ _ Hi) as [w0 [Hw0 Hp]]. rewrite Hw in Hw0. injection Hw0 as <-.
  apply String.eqb_eq in Hp.
  unfold WishlistService.getWishlistsContainingStock. rewrite getWishlists_insert.
  apply in_map_iff. eexists. split; cycle 1.
  - apply filter_In. split.
    + apply list_elem_of_In. eapply list_elem_of_lookup_2.
      apply list_lookup_insert_eq. eapply lookup_lt_Some. exact Hw.
    + cbn [Wl.stocks]. apply existsb_exists. eexists. split.
      * apply in_or_app. right. left. reflexivity.
      * cbn [Wl.symbol]. rewrite Hsym. apply String.eqb_refl.
  - cbn [Wl.id]. exact Hp.
Qed.

Lemma addStock_success_listed_witness :
  In "1760000000000" (WishlistService.getWishlistsContainingStock "MSFT"
    (snd (WishlistService.addStockToWishlist "1760000000000" input_msft "t1" store_tech))).
Proof.
  apply (addStock_success_listed "1760000000000" input_msft "t1" store_tech
           (snd (WishlistService.addStockToWishlist "1760000000000" input_msft "t1" store_tech)) "MSFT").
  - vm_compute. reflexivity.
  - reflexivity.
Defined.

(** Adding a stock by its (non-empty) [symbol] and then removing that
    symbol from the same wishlist succeeds and gives every wishlist back
    its stocks as they were (only [updatedAt] changed). *)
Theorem addStock_removeStock_roundtrip (wid : string) (stock : Wl.StockInput) (sym iso iso' : string)
    (st st1 : Store)
    (Hadd : WishlistService.addStockToWishlist wid stock iso st = (Returns true, st1))
    (Hsym : Wl.in_symbol stock = Some sym) (Hne : sym <> ""%string) :
  fst (WishlistService.removeStockFromWishlist wid sym iso' st1) = Returns true /\
  map Wl.stocks (WishlistService.getWishlists (snd (WishlistService.removeStockFromWishlist wid sym iso' st1)))
    = map Wl.stocks (WishlistService.getWishlists st) /\
  map Wl.id (WishlistService.getWishlists (snd (WishlistService.removeStockFromWishlist wid sym iso' st1)))
    = map Wl.id (WishlistService.getWishlists st).
Proof.
  destruct (addStock_success_shape wid stock iso st st1 Hadd) as [i [w [Hi [Hw [Hex ->]]]]].
  rewrite Hsym in Hex.
  set (ws := WishlistService.getWishlists st) in *.
  assert (Hlt : (i < length ws)%nat) by (eapply lookup_lt_Some; exact Hw).
  unfold WishlistService.removeStockFromWishlist. cbv zeta. rewrite getWishlists_insert.
  erewrite (findIndex_insert _ _ i _ w Hw) by reflexivity. rewrite Hi.
  rewrite list_lookup_insert_eq by exact Hlt. cbn [fst snd].
  rewrite getWishlists_insert, list_insert_insert_eq.
  split; [reflexivity | split].
  - apply (map_insert_same _ _ _ _ w Hw). cbn [Wl.stocks].
    rewrite List.filter_app. cbn [List.filter Wl.symbol].
    assert (Ht : or_str (Some sym) (Wl.in_ticker stock) = Some sym).
    { unfold or_str, truthy. apply String.eqb_neq in Hne. rewrite Hne. reflexivity. }
    rewrite Hsym, Ht. cbn [WishlistService.opt_str_eqb]. rewrite String.eqb_refl. cbn [negb].
    rewrite app_nil_r. apply filter_all_true. intros s Hs. apply negb_true_iff.
    destruct (WishlistService.opt_str_eqb (Wl.symbol s) (Some sym)) eqn:E; [|reflexivity].
    assert (Ht' : existsb (fun s => WishlistService.opt_str_eqb (Wl.symbol s) (Some sym)) (Wl.stocks w) = true)
      by (apply existsb_exists; exists s; split; assumption).
    congruence.
  - apply (map_insert_same _ _ _ _ w Hw). reflexivity.
Qed.

Lemma addStock_removeStock_roundtrip_witness :
  fst (WishlistService.removeStockFromWishlist "1760000000000" "MSFT" "t2"
         (snd (WishlistService.addStockToWishlist "1760000000000" input_msft "t1" store_tech)))
  = Returns true /\
  map Wl.stocks (WishlistService.getWishlists (snd (WishlistService.removeStockFromWishlist
      "1760000000000" "MSFT" "t2"
      (snd (WishlistService.addStockToWishlist "1760000000000" input_msft "t1" store_tech)))))
  = map Wl.stocks (WishlistService.getWishlists store_tech) /\
  map Wl.id (WishlistService.getWishlists (snd (WishlistService.removeStockFromWishlist
      "1760000000000" "MSFT" "t2"
      (snd (WishlistService.addStockToWishlist "1760000000000" input_msft "t1" store_tech)))))
  = map Wl.id (WishlistService.getWishlists store_tech).
Proof.
  apply (addStock_removeStock_roundtrip "1760000000000" input_msft "MSFT" "t1" "t2" store_tech
           (snd (WishlistService.addStockToWishlist "1760000000000" input_msft "t1" store_tech))).
  - vm_compute. reflexivity.
  - reflexivity.
  - apply String.eqb_neq. reflexivity.
Defined.

(** The wishlist operations never change a storage key other than
    "stock_wishlists": the cache items in particular stay as they were. *)
Theorem wishlist_ops_touch_only_wishlist_key (js_trim : string -> string) (wid name sym iso : string) (now : Z)
    (stock : Wl.StockInput) (st : Store) (k : string) (Hk : k <> WISHLIST_KEY) :
  snd (WishlistService.addStockToWishlist wid stock iso st) !! k = st !! k /\
  snd (WishlistService.removeStockFromWishlist wid sym iso st) !! k = st !! k /\
  snd (WishlistService.createWishlist js_trim name now iso st) !! k = st !! k /\
  snd (WishlistService.deleteWishlist wid st) !! k = st !! k /\
  snd (WishlistService.clearAllWishlists st) !! k = st !! k.
Proof.
  split; [|split; [|split; [|split]]].
  - apply wishlist_store_frame; [apply addStock_store | exact Hk].
  - apply wishlist_store_frame; [apply removeStock_store | exact Hk].
  - apply wishlist_store_frame; [right; eexists; reflexivity | exact Hk].
  - apply wishlist_store_frame; [right; eexists; reflexivity | exact Hk].
  - cbn [snd WishlistService.clearAllWishlists]. apply lookup_delete_ne. congruence.
Qed.

Lemma wishlist_ops_touch_only_wishlist_key_witness :
  snd (WishlistService.createWishlist (fun s => s) "Growth" 1760000500000 "t0" store_mixed) !! cache_key "new"
  = Some (SCache (item_at 900)).
Proof.
  rewrite (proj1 (proj2 (proj2 (wishlist_ops_touch_only_wishlist_key (fun s => s) "1760000000000" "Growth" "MSFT"
             "t0" 1760000500000 input_msft store_mixed (cache_key "new")
             ltac:(apply String.eqb_neq; reflexivity))))).
  vm_compute. reflexivity.
Defined.

(* ===================================================================== *)
(* The cache namespace invariant across the services                     *)
(* ===================================================================== *)

Lemma cache_wf_frame (st st' : Store) :
  (forall k, k <> WISHLIST_KEY -> st' !! k = st !! k) -> cache_wf st -> cache_wf st'.
Proof.
  intros F H k v Hk Hp.
  assert (Hne : k <> WISHLIST_KEY) by (intros ->; rewrite wishlist_key_not_cache in Hp; discriminate).
  rewrite (F k Hne) in Hk. exact (H k v Hk Hp).
Qed.

(** Every service operation keeps the "cache_" namespace holding cache
    items only: the cache operations, both fetchers and the wishlist
    operations. *)
Theorem cache_namespace_invariant (st : Store) (H : cache_wf st) :
  (forall key d ms now, cache_wf (set key d ms now st)) /\
  (forall key, cache_wf (remove key st)) /\
  (forall key now, cache_wf (snd (get key now st))) /\
  cache_wf (clearAll st) /\
  (forall now, cache_wf (clearExpired now st)) /\
  (forall fixed2 forceRefresh now now_iso api,
     cache_wf (snd (StockService.fetchTopGainersLosers fixed2 forceRefresh now now_iso api st))) /\
  (forall symbol forceRefresh now api,
     cache_wf (snd (StockService.fetchCompanyOverview symbol forceRefresh now api st))) /\
  (forall wid stock now_iso,
     cache_wf (snd (WishlistService.addStockToWishlist wid stock now_iso st))) /\
  (forall wid sym now_iso,
     cache_wf (snd (WishlistService.removeStockFromWishlist wid sym now_iso st))) /\
  (forall js_trim name now now_iso, cache_wf (snd (WishlistService.createWishlist js_trim name now now_iso st))) /\
  (forall wid, cache_wf (snd (WishlistService.deleteWishlist wid st))) /\
  cache_wf (snd (WishlistService.clearAllWishlists st)).
Proof.
  repeat split.
  - intros. apply cache_wf_set, H.
  - intros. apply cache_wf_delete, H.
  - intros. apply cache_wf_get, H.
  - intros k v Hk Hp. rewrite clearAll_lookup, Hp in Hk. discriminate.
  - intros now k v Hk Hp.
    rewrite clearExpired_lookup in Hk by (apply cache_wf_no_unparsable, H).
    destruct (_ && _); [discriminate | exact (H k v Hk Hp)].
  - intros. eapply touches_wf; [apply fetchTopGainersLosers_touches | exact H].
  - intros. eapply touches_wf; [apply fetchCompanyOverview_touches | exact H].
  - intros. apply (cache_wf_frame st); [|exact H].
    intros k Hk. apply wishlist_store_frame; [apply addStock_store | exact Hk].
  - intros. apply (cache_wf_frame st); [|exact H].
    intros k Hk. apply wishlist_store_frame; [apply removeStock_store | exact Hk].
  - intros. apply (cache_wf_frame st); [|exact H].
    intros k Hk. apply wishlist_store_frame; [right; eexists; reflexivity | exact Hk].
  - intros. apply (cache_wf_frame st); [|exact H].
    intros k Hk. apply wishlist_store_frame; [right; eexists; reflexivity | exact Hk].
  - apply (cache_wf_frame st); [|exact H].
    intros k Hk. cbn [snd WishlistService.clearAllWishlists]. apply lookup_delete_ne. congruence.
Qed.

Lemma cache_namespace_invariant_witness :
  cache_wf store_mixed /\ cache_wf (clearExpired 500 store_mixed) /\
  cache_wf (snd (WishlistService.createWishlist (fun s => s) "Growth" 1760000500000 "t0" store_mixed)).
Proof.
  assert (H : cache_wf store_mixed) by (apply cache_wfb_spec; vm_compute; reflexivity).
  destruct (cache_namespace_invariant store_mixed H) as (_ & _ & _ & _ & Hc & _ & _ & _ & _ & Hw & _ & _).
  exact (conj H (conj (Hc 500) (Hw (fun s => s) "Growth"%string 1760000500000 "t0"%string))).
Defined.

(* ===================================================================== *)
(* searchService: what the results are, getSuggestions                   *)
(* ===================================================================== *)

Lemma NoDup_firstn' {A} (n : nat) (l : list A) : List.NoDup l -> List.NoDup (firstn n l).
Proof.
  intros H. rewrite <- (firstn_skipn n l) in H. exact (List.NoDup_app_remove_r _ _ H).
Qed.

Lemma In_firstn' {A} (n : nat) (l : list A) (x : A) : In x (firstn n l) -> In x l.
Proof. intros H. rewrite <- (firstn_skipn n l). apply in_or_app. left. exact H. Qed.

Lemma NoDup_map_filter {A B} (f : A -> B) (p : A -> bool) (l : list A) :
  List.NoDup (map f l) -> List.NoDup (map f (List.filter p l)).
Proof.
  induction l as [|x l IH]; simpl; intros H; [constructor|].
  inversion H as [|? ? Hnin Hnd]; subst.
  destruct (p x); simpl; [constructor|]; try (apply IH, Hnd).
  intros Hin. apply Hnin. apply in_map_iff in Hin as [y [Hy Hin]].
  apply filter_In in Hin as [Hin _]. rewrite <- Hy. apply in_map, Hin.
Qed.

Lemma exact_group_spec (db : list SearchService.CatalogStock) (q : string) (s : SearchService.CatalogStock) :
  In s (SearchSpec.exact_group db q) -> SearchService.symbol s = q.
Proof.
  unfold SearchSpec.exact_group.
  destruct (List.find _ db) as [x|] eqn:Hf; simpl; [|contradiction].
  intros [<-|[]]. apply find_some in Hf as [_ Hf]. apply String.eqb_eq, Hf.
Qed.

Lemma exact_group_complete (db : list SearchService.CatalogStock) (q : string) (s : SearchService.CatalogStock) :
  List.NoDup (map SearchService.symbol db) -> In s db -> SearchService.symbol s = q ->
  In s (SearchSpec.exact_group db q).
Proof.
  intros Hnd Hs Hq. unfold SearchSpec.exact_group.
  destruct (List.find (fun s => String.eqb (SearchService.symbol s) q) db) as [x|] eqn:Hf.
  - apply find_some in Hf as [Hx Hxq]. apply String.eqb_eq in Hxq.
    left. apply (nodup_symbol_inj db); [exact Hnd | exact Hx | exact Hs | congruence].
  - exfalso. apply (find_none _ _ Hf) in Hs. rewrite Hq, String.eqb_refl in Hs. discriminate.
Qed.

Lemma includes_refl (q : string) : SearchService.includes q q = true.
Proof.
  destruct q as [|c q]; simpl; [reflexivity|].
  destruct (ascii_dec c c) as [_|Hn]; [|contradiction].
  assert (Hp : forall s : string, String.prefix s s = true).
  { induction s as [|a s IH]; simpl; [reflexivity|].
    destruct (ascii_dec a a) as [_|Hn']; [exact IH | contradiction]. }
  rewrite Hp. reflexivity.
Qed.

Lemma ranked_results_match (db : list SearchService.CatalogStock) (query : string) :
  List.NoDup (map SearchService.symbol db) ->
  List.NoDup (map (fun r => SearchService.symbol (fst r)) (SearchSpec.ranked db query)) /\
  forall s t, In (s, t) (SearchSpec.ranked db query) ->
    In s db /\
    match t with
    | SearchService.exact_symbol => SearchService.symbol s = query
    | SearchService.partial_symbol =>
        SearchService.includes (SearchService.symbol s) query = true /\
        SearchService.symbol s <> query
    | SearchService.name_match =>
        SearchService.includes (SearchService.toUpperCase (SearchService.name s)) query = true /\
        SearchService.includes (SearchService.symbol s) query = false
    end.
Proof.
  intros Hnd. unfold SearchSpec.ranked.
  set (E := SearchSpec.exact_group db query).
  set (P := SearchSpec.partial_group db query).
  set (N := SearchSpec.name_group db query).
  assert (HE : forall s, In s E -> In s db /\ SearchService.symbol s = query).
  { intros s Hs. split; [apply (exact_group_in db query), Hs | apply (exact_group_spec db query), Hs]. }
  assert (HP : forall s, In s P -> In s db /\
                 SearchService.includes (SearchService.symbol s) query = true /\
                 SearchService.symbol s <> query).
  { intros s Hs. apply filter_In in Hs as [Hs Hm].
    apply andb_true_iff in Hm as [Hi Hq]. apply negb_true_iff, String.eqb_neq in Hq. tauto. }
  assert (HN : forall s, In s N -> In s db /\
                 SearchService.includes (SearchService.toUpperCase (SearchService.name s)) query = true /\
                 existsb (SearchSpec.catalog_eqb s) (E ++ P) = false).
  { intros s Hs. apply filter_In in Hs as [Hs Hm].
    apply andb_true_iff in Hm as [Hi Hx]. apply negb_true_iff in Hx. tauto. }
  assert (HNotin : forall s, In s N -> ~ In s (E ++ P)).
  { intros s Hs Hin. destruct (HN s Hs) as [_ [_ Hx]].
    assert (Ht : existsb (SearchSpec.catalog_eqb s) (E ++ P) = true).
    { apply existsb_exists. exists s. split; [exact Hin | apply catalog_eqb_true; reflexivity]. }
    congruence. }
  split.
  - rewrite <- firstn_map. apply NoDup_firstn'.
    rewrite !map_app, !map_map. cbn [fst].
    apply List.NoDup_app; [| apply List.NoDup_app |].
    + unfold E, SearchSpec.exact_group. destruct (List.find _ db); simpl;
        [constructor; [intros []|constructor] | constructor].
    + apply NoDup_map_filter, Hnd.
    + apply NoDup_map_filter, Hnd.
    + intros a Ha Hb. apply in_map_iff in Ha as [p [<- Hp]]. apply in_map_iff in Hb as [n [Hpn Hn]].
      apply HNotin in Hn as Hn'. apply Hn'. apply in_or_app. right.
      replace n with p; [exact Hp|].
      apply (nodup_symbol_inj db); [exact Hnd | apply HP, Hp | apply HN, Hn | congruence].
    + intros a Ha Hb. apply in_map_iff in Ha as [e [<- He]].
      apply in_app_or in Hb as [Hb|Hb]; apply in_map_iff in Hb as [x [Hx Hxin]].
      * destruct (HP x Hxin) as [_ [_ Hne]]. destruct (HE e He) as [_ Heq]. congruence.
      * apply (HNotin x Hxin). apply in_or_app. left.
        replace x with e; [exact He|].
        apply (nodup_symbol_inj db); [exact Hnd | apply HE, He | apply HN, Hxin | congruence].
  - intros s t Hin. apply In_firstn' in Hin.
    apply in_app_or in Hin as [Hin|Hin]; [|apply in_app_or in Hin as [Hin|Hin]];
      apply in_map_iff in Hin as [x [Hx Hxin]]; injection Hx as -> <-.
    + exact (HE s Hxin).
    + exact (HP s Hxin).
    + destruct (HN s Hxin) as [Hdb [Hname _]]. split; [exact Hdb|]. split; [exact Hname|].
      destruct (SearchService.includes (SearchService.symbol s) query) eqn:Hi; [|reflexivity].
      exfalso. apply (HNotin s Hxin). apply in_or_app.
      destruct (String.eqb_spec (SearchService.symbol s) query) as [Hq|Hq].
      * left. apply (exact_group_complete db query s Hnd Hdb Hq).
      * right. apply filter_In. split; [exact Hdb|].
        rewrite Hi. apply String.eqb_neq in Hq. rewrite Hq. reflexivity.
Qed.

(** Every result of performLocalSearch is a catalog stock that matches the
    query as its tag says: an exact symbol match has the query as symbol,
    a partial symbol match contains the query in its symbol and differs
    from it, a name match contains the query in its upper-cased name and
    not in its symbol; no symbol is listed twice. *)
Theorem performLocalSearch_results_match (query : string) :
  List.NoDup (map (fun r => SearchService.symbol (fst r)) (SearchService.performLocalSearch query)) /\
  forall s t, In (s, t) (SearchService.performLocalSearch query) ->
    In s SearchService.getStockDatabase /\
    match t with
    | SearchService.exact_symbol => SearchService.symbol s = query
    | SearchService.partial_symbol =>
        SearchService.includes (SearchService.symbol s) query = true /\
        SearchService.symbol s <> query
    | SearchService.name_match =>
        SearchService.includes (SearchService.toUpperCase (SearchService.name s)) query = true /\
        SearchService.includes (SearchService.symbol s) query = false
    end.
Proof.
  assert (Hnd : List.NoDup (map SearchService.symbol SearchService.getStockDatabase)).
  { apply nodupb_NoDup. vm_compute. reflexivity. }
  assert (Hr : SearchService.performLocalSearch query
               = SearchSpec.ranked SearchService.getStockDatabase query)
    by apply performLocalSearch_in_ranked, Hnd.
  rewrite Hr. exact (ranked_results_match _ query Hnd).
Qed.

(** getSuggestions, whatever [trim] and [toUpperCase] do to the user's
    query: a query that trims to "" gets the popular list; any other gets
    at most 8 results, all catalog stocks with distinct symbols, each
    matching the trimmed, upper-cased query as its tag says. *)
Theorem getSuggestions_results (js_trim js_toUpperCase : string -> string) (query : string) :
  match SearchService.getSuggestions js_trim js_toUpperCase query with
  | inl ps => ps = SearchService.getPopularStocks /\ js_trim query = ""%string
  | inr rs =>
      js_trim query <> ""%string /\ (length rs <= 8)%nat /\
      List.NoDup (map (fun r => SearchService.symbol (fst r)) rs) /\
      forall s t, In (s, t) rs ->
        In s SearchService.getStockDatabase /\
        let q := js_toUpperCase (js_trim query) in
        match t with
        | SearchService.exact_symbol => SearchService.symbol s = q
        | SearchService.partial_symbol =>
            SearchService.includes (SearchService.symbol s) q = true /\
            SearchService.symbol s <> q
        | SearchService.name_match =>
            SearchService.includes (SearchService.toUpperCase (SearchService.name s)) q = true /\
            SearchService.includes (SearchService.symbol s) q = false
        end
  end.
Proof.
  unfold SearchService.getSuggestions.
  destruct (String.eqb_spec (js_trim query) "") as [He|Hne]; [split; [reflexivity | exact He]|].
  set (q := js_toUpperCase (js_trim query)).
  assert (Hnd : List.NoDup (map SearchService.symbol SearchService.getStockDatabase)).
  { apply nodupb_NoDup. vm_compute. reflexivity. }
  assert (Hr : SearchService.performLocalSearch q
               = SearchSpec.ranked SearchService.getStockDatabase q)
    by apply performLocalSearch_in_ranked, Hnd.
  rewrite Hr.
  destruct (ranked_results_match SearchService.getStockDatabase q Hnd) as [Hd Hm].
  split; [exact Hne|]. split; [apply firstn_le_length|]. split.
  - rewrite <- firstn_map. apply NoDup_firstn', Hd.
  - intros s t Hin. apply In_firstn' in Hin. exact (Hm s t Hin).
Qed.
